(** * OpenSquawk MSFS bridge: connection lifecycle, telemetry cache, setters

    A shallow embedding of [wasm/opensquawk_bridge/src/Bridge.cpp] (with
    [Bridge.h] and [exports.cpp]).  The bridge object is a record; every
    method is a function from the bridge and the host-side world to a
    result and the new world.  The simulation host is an oracle: whatever
    a SimConnect call hands back (the HRESULT, the handle written through
    the out-pointer, the messages delivered to the dispatch callback) is
    an argument of the method that makes the call, and every outbound
    call is appended to a trace so that statements such as _no write is
    issued_ can be made about it.  The steady clock is an argument as
    well: a method that calls NowMs takes the reading.

    - uint64_t values are [Z] with the wrap-around written out;
    - double values are IEEE binary64 values: sign bit, class, mantissa
      and exponent;
    - std::string and C strings are [string]. *)

From Stdlib Require Import ZArith List String Ascii Bool Lia.
From Stdlib Require Import SpecFloat DecimalString.
Import ListNotations.
Open Scope Z_scope.

(** ** Machine integers *)

Module U64.
Definition modulus : Z := 2 ^ 64.
Definition wrap (z : Z) : Z := z mod modulus.
Definition sub (a b : Z) : Z := wrap (a - b).
Definition in_range (z : Z) : Prop := 0 <= z < modulus.
End U64.

Module U32.
Definition modulus : Z := 2 ^ 32.
(* static_cast<uint32_t>(int) *)
Definition of_int (z : Z) : Z := z mod modulus.
End U32.

(** ** Doubles *)

Module Double.
(* A binary64 value: a zero, an infinity or a NaN with its sign bit, or the
   finite value (-1)^s * m * 2^e.  The payload of a NaN is left out: the
   bridge copies doubles and prints them, and neither looks at it. *)
Inductive t : Type :=
| F754_zero (s : bool)
| F754_infinity (s : bool)
| F754_nan (s : bool)
| F754_finite (s : bool) (m : positive) (e : Z).

Definition prec : Z := 53.
Definition emax : Z := 1024.

Definition to_spec (d : t) : spec_float :=
  match d with
  | F754_zero s => S754_zero s
  | F754_infinity s => S754_infinity s
  | F754_nan _ => S754_nan
  | F754_finite s m e => S754_finite s m e
  end.

Definition of_spec (x : spec_float) : t :=
  match x with
  | S754_zero s => F754_zero s
  | S754_infinity s => F754_infinity s
  | S754_nan => F754_nan false
  | S754_finite s m e => F754_finite s m e
  end.

Definition valid (d : t) : bool := valid_binary prec emax (to_spec d).

(* The binary64 value m * 2^e, rounded to nearest even when it needs
   more than 53 bits. *)
Definition dyadic (m e : Z) : t := of_spec (binary_normalize prec emax m e false).

(* static_cast<double>(int): every 32-bit integer is representable. *)
Definition of_int (z : Z) : t := dyadic z 0.

Definition zero : t := F754_zero false.   (* the literal 0.0 *)
Definition one : t := dyadic 1 0.         (* the literal 1.0 *)
End Double.

(** ** The C library: the %.Nf conversion and snprintf

    The conversion prints the exact decimal expansion of the binary value
    rounded to N fractional digits, ties to even (the default rounding
    mode), a minus sign for every value with the sign bit set, zeros,
    infinities and NaNs included, and inf or nan for an infinity or a
    NaN. *)

Module Printf.
Open Scope string_scope.

Definition dec (z : Z) : string := NilZero.string_of_uint (N.to_uint (Z.to_N z)).

Fixpoint zeros (n : nat) : string :=
  match n with
  | O => ""
  | S n' => String "0" (zeros n')
  end.

Definition pad_left (width : nat) (s : string) : string :=
  zeros (width - String.length s) ++ s.

(* m * 2^e * 10^digits as an integer, ties to even *)
Definition scaled (digits : nat) (m : positive) (e : Z) : Z :=
  let num := (Zpos m * 10 ^ Z.of_nat digits)%Z in
  if (0 <=? e)%Z then (num * 2 ^ e)%Z
  else
    let den := (2 ^ (- e))%Z in
    let q := (num / den)%Z in
    let r := (num mod den)%Z in
    match (2 * r ?= den)%Z with
    | Lt => q
    | Gt => (q + 1)%Z
    | Eq => if Z.even q then q else (q + 1)%Z
    end.

Definition fixed (digits : nat) (n : Z) : string :=
  let p := (10 ^ Z.of_nat digits)%Z in
  dec (n / p) ++
  match digits with
  | O => ""
  | _ => "." ++ pad_left digits (dec (n mod p))
  end.

Definition sign (s : bool) : string := if s then "-" else "".

(* printf of one double under %.<digits>f *)
Definition fmt_f (digits : nat) (d : Double.t) : string :=
  match d with
  | Double.F754_zero s => sign s ++ fixed digits 0
  | Double.F754_infinity s => sign s ++ "inf"
  | Double.F754_nan s => sign s ++ "nan"
  | Double.F754_finite s m e => sign s ++ fixed digits (scaled digits m e)
  end.

Definition digit_of_ascii (c : ascii) : nat := nat_of_ascii c - 48.

(* The text a format produces from its arguments.  The only conversion
   the bridge uses is %.<one digit>f; every other character is copied. *)
Fixpoint format (fmt : string) (args : list Double.t) : string :=
  match fmt with
  | EmptyString => ""
  | String c rest =>
      if Ascii.eqb c "%" then
        match rest with
        | String dot (String p (String f rest')) =>
            if Ascii.eqb dot "." && Ascii.eqb f "f" then
              match args with
              | a :: args' => fmt_f (digit_of_ascii p) a ++ format rest' args'
              | [] => format rest' []
              end
            else String c (format rest args)
        | _ => String c (format rest args)
        end
      else String c (format rest args)
  end.

Fixpoint take (n : nat) (s : string) : string :=
  match n, s with
  | S n', String c s' => String c (take n' s')
  | _, _ => ""
  end.

(* snprintf(buffer, size, fmt, ...): what the buffer holds afterwards,
   read as a C string: at most size - 1 characters of the text. *)
Definition snprintf (size : nat) (fmt : string) (args : list Double.t) : string :=
  take (size - 1) (format fmt args).

(* A C string literal of the source, written with an apostrophe wherever
   the source has an escaped double quote. *)
Definition dquote : ascii := "034"%char.

Fixpoint cstr (s : string) : string :=
  match s with
  | EmptyString => ""
  | String c s' => String (if Ascii.eqb c "'" then dquote else c) (cstr s')
  end.
End Printf.

(** ** SimConnect: the part of the SDK interface the bridge uses

    SimConnect.h belongs to the simulator SDK.  Only the shape of the
    calls matters here; identifiers that the bridge passes through without
    inspecting them are kept symbolic. *)

Definition HANDLE : Type := Z.
Definition nullptr : HANDLE := 0.
Definition DWORD : Type := Z.

Inductive SIMCONNECT_PERIOD : Type :=
| SIMCONNECT_PERIOD_NEVER
| SIMCONNECT_PERIOD_ONCE
| SIMCONNECT_PERIOD_VISUAL_FRAME
| SIMCONNECT_PERIOD_SIM_FRAME
| SIMCONNECT_PERIOD_SECOND.

Inductive SIMCONNECT_DATA_REQUEST_FLAG : Type :=
| SIMCONNECT_DATA_REQUEST_FLAG_DEFAULT
| SIMCONNECT_DATA_REQUEST_FLAG_CHANGED
| SIMCONNECT_DATA_REQUEST_FLAG_TAGGED.

Inductive SIMCONNECT_DATATYPE : Type :=
| SIMCONNECT_DATATYPE_INT32
| SIMCONNECT_DATATYPE_INT64
| SIMCONNECT_DATATYPE_FLOAT32
| SIMCONNECT_DATATYPE_FLOAT64.

(* Bytes of one datum of each type. *)
Definition datatype_size (ty : SIMCONNECT_DATATYPE) : Z :=
  match ty with
  | SIMCONNECT_DATATYPE_INT32 => 4
  | SIMCONNECT_DATATYPE_INT64 => 8
  | SIMCONNECT_DATATYPE_FLOAT32 => 4
  | SIMCONNECT_DATATYPE_FLOAT64 => 8
  end.

(* SimConnect_AddToDataDefinition called with four arguments registers
   the datum with the default type of the fifth parameter, a 64-bit
   float.  The bridge relies on it: TelemetryData overlays the twenty
   fields registered this way with twenty doubles. *)
Definition default_DatumType : SIMCONNECT_DATATYPE := SIMCONNECT_DATATYPE_FLOAT64.

Inductive ObjectId : Type :=
| SIMCONNECT_OBJECT_ID_USER.

(* The object a setter passes by address, with its C type. *)
Inductive Datum : Type :=
| uint32_datum (value : Z)
| double_datum (value : Double.t).

Definition sizeof (d : Datum) : Z :=
  match d with
  | uint32_datum _ => 4
  | double_datum _ => 8
  end.

(* Whether a datum is an object of the C type a SimConnect datatype
   stands for. *)
Definition datum_has_type (d : Datum) (ty : SIMCONNECT_DATATYPE) : bool :=
  match d, ty with
  | double_datum _, SIMCONNECT_DATATYPE_FLOAT64 => true
  | _, _ => false
  end.

(** Outbound calls, in the order they are made. *)
Inductive HostCall : Type :=
| SimConnect_Open (szName : string)
| SimConnect_AddToDataDefinition (h : HANDLE) (DefineID : DWORD) (DatumName UnitsName : string)
| SimConnect_RequestDataOnSimObject (h : HANDLE) (RequestID DefineID : DWORD) (ObjectID : ObjectId)
    (Period : SIMCONNECT_PERIOD) (Flags : SIMCONNECT_DATA_REQUEST_FLAG)
| SimConnect_CallDispatch (h : HANDLE)
| SimConnect_Close (h : HANDLE)
| SimConnect_SetDataOnSimObject (h : HANDLE) (DefineID : DWORD) (ObjectID : ObjectId)
    (Flags ArrayCount : DWORD) (cbUnitSize : Z) (pDataSet : Datum).

(* What SimConnect_Open hands back: the HRESULT, as SUCCEEDED sees it, and
   the value the handle holds after the call. *)
Record OpenReply : Type := mkOpenReply {
  open_succeeded : bool;
  open_handle : HANDLE
}.

(** ** Bridge.h *)

Module TelemetrySnapshot.
Record t : Type := mk {
  latitude_deg : Double.t;
  longitude_deg : Double.t;
  altitude_ft_true : Double.t;
  altitude_ft_indicated : Double.t;
  ias_kt : Double.t;
  tas_kt : Double.t;
  ground_velocity_mps : Double.t;
  turbine_n1_pct : Double.t;
  on_ground : Double.t;
  engine_combustion : Double.t;
  transponder_code : Double.t;
  adf_active_freq_khz : Double.t;
  adf_standby_freq_khz : Double.t;
  vertical_speed_fpm : Double.t;
  pitch_deg : Double.t;
  turbine_n1_pct_2 : Double.t;
  gear_handle : Double.t;
  flaps_index : Double.t;
  parking_brake : Double.t;
  autopilot_master : Double.t
}.

(* every member initialised to 0.0 *)
Definition default : t :=
  mk Double.zero Double.zero Double.zero Double.zero Double.zero
     Double.zero Double.zero Double.zero Double.zero Double.zero
     Double.zero Double.zero Double.zero Double.zero Double.zero
     Double.zero Double.zero Double.zero Double.zero Double.zero.

Definition fields (s : t) : list Double.t :=
  [ latitude_deg s; longitude_deg s; altitude_ft_true s; altitude_ft_indicated s;
    ias_kt s; tas_kt s; ground_velocity_mps s; turbine_n1_pct s;
    on_ground s; engine_combustion s; transponder_code s;
    adf_active_freq_khz s; adf_standby_freq_khz s; vertical_speed_fpm s;
    pitch_deg s; turbine_n1_pct_2 s; gear_handle s; flaps_index s;
    parking_brake s; autopilot_master s ].
End TelemetrySnapshot.

Record Bridge : Type := mkBridge {
  simconnect_ : HANDLE;
  connected_ : bool;
  snapshot_valid_ : bool;
  snapshot_ts_ms_ : Z;
  last_connect_attempt_ms_ : Z;
  snapshot_ : TelemetrySnapshot.t;
  snapshot_json_ : string
}.

(* Bridge::Bridge() = default, with the member initialisers *)
Definition Bridge_default : Bridge :=
  mkBridge nullptr false false 0 0 TelemetrySnapshot.default EmptyString.

Definition set_simconnect_ (v : HANDLE) (b : Bridge) : Bridge :=
  mkBridge v (connected_ b) (snapshot_valid_ b) (snapshot_ts_ms_ b)
           (last_connect_attempt_ms_ b) (snapshot_ b) (snapshot_json_ b).
Definition set_connected_ (v : bool) (b : Bridge) : Bridge :=
  mkBridge (simconnect_ b) v (snapshot_valid_ b) (snapshot_ts_ms_ b)
           (last_connect_attempt_ms_ b) (snapshot_ b) (snapshot_json_ b).
Definition set_snapshot_valid_ (v : bool) (b : Bridge) : Bridge :=
  mkBridge (simconnect_ b) (connected_ b) v (snapshot_ts_ms_ b)
           (last_connect_attempt_ms_ b) (snapshot_ b) (snapshot_json_ b).
Definition set_snapshot_ts_ms_ (v : Z) (b : Bridge) : Bridge :=
  mkBridge (simconnect_ b) (connected_ b) (snapshot_valid_ b) v
           (last_connect_attempt_ms_ b) (snapshot_ b) (snapshot_json_ b).
Definition set_last_connect_attempt_ms_ (v : Z) (b : Bridge) : Bridge :=
  mkBridge (simconnect_ b) (connected_ b) (snapshot_valid_ b) (snapshot_ts_ms_ b)
           v (snapshot_ b) (snapshot_json_ b).
Definition set_snapshot_ (v : TelemetrySnapshot.t) (b : Bridge) : Bridge :=
  mkBridge (simconnect_ b) (connected_ b) (snapshot_valid_ b) (snapshot_ts_ms_ b)
           (last_connect_attempt_ms_ b) v (snapshot_json_ b).
Definition set_snapshot_json_ (v : string) (b : Bridge) : Bridge :=
  mkBridge (simconnect_ b) (connected_ b) (snapshot_valid_ b) (snapshot_ts_ms_ b)
           (last_connect_attempt_ms_ b) (snapshot_ b) v.

(** ** The world: the singleton bridge and the trace of host calls *)

Record World : Type := mkWorld {
  bridge : Bridge;
  host_calls : list HostCall
}.

Definition initial : World := mkWorld Bridge_default [].

Definition M (A : Type) : Type := World -> A * World.

Definition ret {A : Type} (a : A) : M A := fun w => (a, w).

Definition bind {A B : Type} (m : M A) (k : A -> M B) : M B :=
  fun w => let (a, w') := m w in k a w'.

Definition gets {A : Type} (f : Bridge -> A) : M A :=
  fun w => (f (bridge w), w).

Definition modify (f : Bridge -> Bridge) : M unit :=
  fun w => (tt, mkWorld (f (bridge w)) (host_calls w)).

Definition call (c : HostCall) : M unit :=
  fun w => (tt, mkWorld (bridge w) (host_calls w ++ [c])).

Fixpoint for_each {A : Type} (l : list A) (body : A -> M unit) : M unit :=
  match l with
  | [] => ret tt
  | a :: l' => bind (body a) (fun _ => for_each l' body)
  end.

Definition exec {A : Type} (m : M A) (w : World) : World := snd (m w).
Definition result {A : Type} (m : M A) (w : World) : A := fst (m w).

Declare Scope bridge_scope.
Delimit Scope bridge_scope with bridge.
Notation "x <- m ;; k" := (bind m (fun x => k))
  (at level 61, m at next level, right associativity) : bridge_scope.
Notation "m ;; k" := (bind m (fun _ => k))
  (at level 61, right associativity) : bridge_scope.
Open Scope bridge_scope.

(** ** Bridge.cpp *)

Definition kUserObjectId : ObjectId := SIMCONNECT_OBJECT_ID_USER.
Definition kRequestTelemetry : DWORD := 1.
Definition kDefTelemetry : DWORD := 1.

Definition kDefTransponder : DWORD := 10.
Definition kDefAdfActive : DWORD := 11.
Definition kDefAdfStandby : DWORD := 12.
Definition kDefGearHandle : DWORD := 13.
Definition kDefFlapsIndex : DWORD := 14.
Definition kDefParkingBrake : DWORD := 15.
Definition kDefAutopilot : DWORD := 16.

Definition kCooldownMs : Z := 2000.

(* The tuple the host delivers for the bulk definition, as the overlay
   struct declares it. *)
Module TelemetryData.
Record t : Type := mk {
  latitude_deg : Double.t;
  longitude_deg : Double.t;
  altitude_ft_true : Double.t;
  altitude_ft_indicated : Double.t;
  ias_kt : Double.t;
  tas_kt : Double.t;
  ground_velocity_mps : Double.t;
  turbine_n1_pct : Double.t;
  on_ground : Double.t;
  engine_combustion : Double.t;
  transponder_code : Double.t;
  adf_active_freq_khz : Double.t;
  adf_standby_freq_khz : Double.t;
  vertical_speed_fpm : Double.t;
  pitch_deg : Double.t;
  turbine_n1_pct_2 : Double.t;
  gear_handle : Double.t;
  flaps_index : Double.t;
  parking_brake : Double.t;
  autopilot_master : Double.t
}.
End TelemetryData.

(* A message handed to the dispatch callback, by its dwID. *)
Inductive SIMCONNECT_RECV : Type :=
| SIMCONNECT_RECV_ID_OPEN
| SIMCONNECT_RECV_ID_QUIT
| SIMCONNECT_RECV_ID_SIMOBJECT_DATA (dwRequestID : DWORD) (dwData : TelemetryData.t)
| SIMCONNECT_RECV_ID_OTHER (dwID : DWORD).

(* The definitions registered after a successful open, in source order:
   the twenty data of the bulk definition, then one datum for each of the
   seven write definitions. *)
Definition telemetry_definition : list (string * string) :=
  [ ("PLANE LATITUDE", "degrees");
    ("PLANE LONGITUDE", "degrees");
    ("PLANE ALTITUDE", "feet");
    ("INDICATED ALTITUDE", "feet");
    ("AIRSPEED INDICATED", "knots");
    ("AIRSPEED TRUE", "knots");
    ("GROUND VELOCITY", "meters per second");
    ("TURB ENG N1:1", "percent");
    ("SIM ON GROUND", "bool");
    ("ENG COMBUSTION:1", "bool");
    ("TRANSPONDER CODE:1", "bco16");
    ("ADF ACTIVE FREQUENCY:1", "kilohertz");
    ("ADF STANDBY FREQUENCY:1", "kilohertz");
    ("VERTICAL SPEED", "feet per minute");
    ("PLANE PITCH DEGREES", "degrees");
    ("TURB ENG N1:2", "percent");
    ("GEAR HANDLE POSITION", "bool");
    ("FLAPS HANDLE INDEX", "number");
    ("BRAKE PARKING POSITION", "bool");
    ("AUTOPILOT MASTER", "bool") ]%string.

Definition write_definitions : list (DWORD * (string * string)) :=
  [ (kDefTransponder, ("TRANSPONDER CODE:1", "bco16"));
    (kDefAdfActive, ("ADF ACTIVE FREQUENCY:1", "kilohertz"));
    (kDefAdfStandby, ("ADF STANDBY FREQUENCY:1", "kilohertz"));
    (kDefGearHandle, ("GEAR HANDLE POSITION", "bool"));
    (kDefFlapsIndex, ("FLAPS HANDLE INDEX", "number"));
    (kDefParkingBrake, ("BRAKE PARKING POSITION", "bool"));
    (kDefAutopilot, ("AUTOPILOT MASTER", "bool")) ]%string.

(* SimConnect_Open(&simconnect_, name, ...): the host writes the handle *)
Definition do_SimConnect_Open (szName : string) (host : OpenReply) : M bool :=
  call (SimConnect_Open szName) ;;
  modify (set_simconnect_ (open_handle host)) ;;
  ret (open_succeeded host).

Definition RequestTelemetry : M unit :=
  h <- gets simconnect_ ;;
  call (SimConnect_RequestDataOnSimObject h kRequestTelemetry kDefTelemetry kUserObjectId
          SIMCONNECT_PERIOD_SECOND SIMCONNECT_DATA_REQUEST_FLAG_CHANGED).

Definition EnsureConnected (now : Z) (host : OpenReply) : M bool :=
  connected <- gets connected_ ;;
  if connected then ret true
  else
    last <- gets last_connect_attempt_ms_ ;;
    if U64.sub now last <? kCooldownMs then ret false
    else
      modify (set_last_connect_attempt_ms_ now) ;;
      ok <- do_SimConnect_Open "OpenSquawkBridge" host ;;
      if ok then
        modify (set_connected_ true) ;;
        h <- gets simconnect_ ;;
        for_each telemetry_definition
          (fun d => call (SimConnect_AddToDataDefinition h kDefTelemetry (fst d) (snd d))) ;;
        for_each write_definitions
          (fun d => call (SimConnect_AddToDataDefinition h (fst d) (fst (snd d)) (snd (snd d)))) ;;
        RequestTelemetry ;;
        ret true
      else ret false.

Definition Close : M unit :=
  h <- gets simconnect_ ;;
  (if negb (h =? nullptr) then call (SimConnect_Close h) else ret tt) ;;
  modify (set_simconnect_ nullptr) ;;
  modify (set_connected_ false) ;;
  modify (set_snapshot_valid_ false).

Definition IsConnected (b : Bridge) : bool := connected_ b.
Definition HasSnapshot (b : Bridge) : bool := snapshot_valid_ b.

Definition SnapshotAgeMs (now : Z) (b : Bridge) : Z :=
  if negb (snapshot_valid_ b) then 0
  else if now >=? snapshot_ts_ms_ b then U64.sub now (snapshot_ts_ms_ b) else 0.

Definition GetSnapshotJson : M string :=
  valid <- gets snapshot_valid_ ;;
  if negb valid then
    modify (set_snapshot_json_ "{}") ;;
    gets snapshot_json_
  else gets snapshot_json_.

Definition do_SetDataOnSimObject (DefineID : DWORD) (value : Datum) (hr : bool) : M bool :=
  h <- gets simconnect_ ;;
  call (SimConnect_SetDataOnSimObject h DefineID kUserObjectId 0 0 (sizeof value) value) ;;
  ret hr.

Definition SetTransponderCode (code : Z) (hr : bool) : M bool :=
  connected <- gets connected_ ;;
  if negb connected then ret false
  else
    let value := uint32_datum (U32.of_int code) in
    do_SetDataOnSimObject kDefTransponder value hr.

Definition SetAdfActiveKHz (value_khz : Double.t) (hr : bool) : M bool :=
  connected <- gets connected_ ;;
  if negb connected then ret false
  else
    let value := double_datum value_khz in
    do_SetDataOnSimObject kDefAdfActive value hr.

Definition SetAdfStandbyKHz (value_khz : Double.t) (hr : bool) : M bool :=
  connected <- gets connected_ ;;
  if negb connected then ret false
  else
    let value := double_datum value_khz in
    do_SetDataOnSimObject kDefAdfStandby value hr.

Definition SetGearHandle (on : bool) (hr : bool) : M bool :=
  connected <- gets connected_ ;;
  if negb connected then ret false
  else
    let value := double_datum (if on then Double.one else Double.zero) in
    do_SetDataOnSimObject kDefGearHandle value hr.

Definition SetFlapsIndex (index : Z) (hr : bool) : M bool :=
  connected <- gets connected_ ;;
  if negb connected then ret false
  else
    let value := double_datum (Double.of_int index) in
    do_SetDataOnSimObject kDefFlapsIndex value hr.

Definition SetParkingBrake (on : bool) (hr : bool) : M bool :=
  connected <- gets connected_ ;;
  if negb connected then ret false
  else
    let value := double_datum (if on then Double.one else Double.zero) in
    do_SetDataOnSimObject kDefParkingBrake value hr.

Definition SetAutopilotMaster (on : bool) (hr : bool) : M bool :=
  connected <- gets connected_ ;;
  if negb connected then ret false
  else
    let value := double_datum (if on then Double.one else Double.zero) in
    do_SetDataOnSimObject kDefAutopilot value hr.

Definition snapshot_format : string :=
  Printf.cstr
    ("{'latitude':%.8f,'longitude':%.8f,'altitude_ft_true':%.2f,'altitude_ft_indicated':%.2f," ++
     "'ias_kt':%.2f,'tas_kt':%.2f,'ground_velocity_mps':%.3f,'turbine_n1_pct':%.2f," ++
     "'on_ground':%.0f,'engine_combustion':%.0f,'transponder_code':%.0f," ++
     "'adf_active_freq_khz':%.3f,'adf_standby_freq_khz':%.3f,'vertical_speed_fpm':%.1f," ++
     "'pitch_deg':%.2f,'turbine_n1_pct_2':%.2f,'gear_handle':%.0f,'flaps_index':%.0f," ++
     "'parking_brake':%.0f,'autopilot_master':%.0f}")%string.

Definition BuildSnapshotJson : M unit :=
  s <- gets snapshot_ ;;
  let buffer :=
    Printf.snprintf 1024 snapshot_format
      [ TelemetrySnapshot.latitude_deg s;
        TelemetrySnapshot.longitude_deg s;
        TelemetrySnapshot.altitude_ft_true s;
        TelemetrySnapshot.altitude_ft_indicated s;
        TelemetrySnapshot.ias_kt s;
        TelemetrySnapshot.tas_kt s;
        TelemetrySnapshot.ground_velocity_mps s;
        TelemetrySnapshot.turbine_n1_pct s;
        TelemetrySnapshot.on_ground s;
        TelemetrySnapshot.engine_combustion s;
        TelemetrySnapshot.transponder_code s;
        TelemetrySnapshot.adf_active_freq_khz s;
        TelemetrySnapshot.adf_standby_freq_khz s;
        TelemetrySnapshot.vertical_speed_fpm s;
        TelemetrySnapshot.pitch_deg s;
        TelemetrySnapshot.turbine_n1_pct_2 s;
        TelemetrySnapshot.gear_handle s;
        TelemetrySnapshot.flaps_index s;
        TelemetrySnapshot.parking_brake s;
        TelemetrySnapshot.autopilot_master s ] in
  modify (set_snapshot_json_ buffer).

(* The twenty member-wise assignments snapshot_.f = telemetry->f. *)
Definition assign_snapshot (telemetry : TelemetryData.t) : TelemetrySnapshot.t :=
  TelemetrySnapshot.mk
    (TelemetryData.latitude_deg telemetry)
    (TelemetryData.longitude_deg telemetry)
    (TelemetryData.altitude_ft_true telemetry)
    (TelemetryData.altitude_ft_indicated telemetry)
    (TelemetryData.ias_kt telemetry)
    (TelemetryData.tas_kt telemetry)
    (TelemetryData.ground_velocity_mps telemetry)
    (TelemetryData.turbine_n1_pct telemetry)
    (TelemetryData.on_ground telemetry)
    (TelemetryData.engine_combustion telemetry)
    (TelemetryData.transponder_code telemetry)
    (TelemetryData.adf_active_freq_khz telemetry)
    (TelemetryData.adf_standby_freq_khz telemetry)
    (TelemetryData.vertical_speed_fpm telemetry)
    (TelemetryData.pitch_deg telemetry)
    (TelemetryData.turbine_n1_pct_2 telemetry)
    (TelemetryData.gear_handle telemetry)
    (TelemetryData.flaps_index telemetry)
    (TelemetryData.parking_brake telemetry)
    (TelemetryData.autopilot_master telemetry).

(* [now] is the clock reading of the NowMs call in the data case. *)
Definition HandleDispatch (data : SIMCONNECT_RECV) (now : Z) : M unit :=
  match data with
  | SIMCONNECT_RECV_ID_OPEN => ret tt
  | SIMCONNECT_RECV_ID_QUIT => Close
  | SIMCONNECT_RECV_ID_SIMOBJECT_DATA dwRequestID telemetry =>
      if negb (dwRequestID =? kRequestTelemetry) then ret tt
      else
        modify (set_snapshot_ (assign_snapshot telemetry)) ;;
        modify (set_snapshot_valid_ true) ;;
        modify (set_snapshot_ts_ms_ now) ;;
        BuildSnapshotJson
  | SIMCONNECT_RECV_ID_OTHER _ => ret tt
  end.

(* SimConnect_CallDispatch(simconnect_, &Bridge::DispatchProc, this): the
   host calls DispatchProc back, once for each message it delivers; each
   message comes with the clock reading at its delivery. *)
Definition do_SimConnect_CallDispatch (delivered : list (SIMCONNECT_RECV * Z)) : M unit :=
  h <- gets simconnect_ ;;
  call (SimConnect_CallDispatch h) ;;
  for_each delivered (fun m => HandleDispatch (fst m) (snd m)).

Definition Tick (now : Z) (host : OpenReply) (delivered : list (SIMCONNECT_RECV * Z)) : M unit :=
  EnsureConnected now host ;;
  connected <- gets connected_ ;;
  if connected then do_SimConnect_CallDispatch delivered else ret tt.

(** ** exports.cpp: the entry points, and runs of them *)

Inductive Export : Type :=
| osb_init (now : Z) (host : OpenReply)
| osb_tick (now : Z) (host : OpenReply) (delivered : list (SIMCONNECT_RECV * Z))
| osb_is_connected
| osb_get_snapshot_json
| osb_get_snapshot_age_ms (now : Z)
| osb_set_transponder_code (code : Z) (hr : bool)
| osb_set_adf_active_khz (value_khz : Double.t) (hr : bool)
| osb_set_adf_standby_khz (value_khz : Double.t) (hr : bool)
| osb_set_gear_handle (on : Z) (hr : bool)
| osb_set_flaps_index (index : Z) (hr : bool)
| osb_set_parking_brake (on : Z) (hr : bool)
| osb_set_autopilot_master (on : Z) (hr : bool)
| module_init (now : Z) (host : OpenReply)
| module_deinit.

Definition step (e : Export) : M unit :=
  match e with
  | osb_init now host => EnsureConnected now host ;; ret tt
  | osb_tick now host delivered => Tick now host delivered
  | osb_is_connected => gets IsConnected ;; ret tt
  | osb_get_snapshot_json => GetSnapshotJson ;; ret tt
  | osb_get_snapshot_age_ms now => gets (SnapshotAgeMs now) ;; ret tt
  | osb_set_transponder_code code hr => SetTransponderCode code hr ;; ret tt
  | osb_set_adf_active_khz v hr => SetAdfActiveKHz v hr ;; ret tt
  | osb_set_adf_standby_khz v hr => SetAdfStandbyKHz v hr ;; ret tt
  | osb_set_gear_handle on hr => SetGearHandle (negb (on =? 0)) hr ;; ret tt
  | osb_set_flaps_index index hr => SetFlapsIndex index hr ;; ret tt
  | osb_set_parking_brake on hr => SetParkingBrake (negb (on =? 0)) hr ;; ret tt
  | osb_set_autopilot_master on hr => SetAutopilotMaster (negb (on =? 0)) hr ;; ret tt
  | module_init now host => EnsureConnected now host ;; ret tt
  | module_deinit => Close
  end.

Fixpoint run (es : list Export) (w : World) : World :=
  match es with
  | [] => w
  | e :: es' => run es' (exec (step e) w)
  end.

Definition reachable (w : World) : Prop := exists es, w = run es initial.

(** ** Vocabulary of the statements *)

(* The calls a successful open is followed by. *)
Definition registration_calls (h : HANDLE) : list HostCall :=
  map (fun d => SimConnect_AddToDataDefinition h kDefTelemetry (fst d) (snd d))
      telemetry_definition ++
  map (fun d => SimConnect_AddToDataDefinition h (fst d) (fst (snd d)) (snd (snd d)))
      write_definitions ++
  [ SimConnect_RequestDataOnSimObject h kRequestTelemetry kDefTelemetry kUserObjectId
      SIMCONNECT_PERIOD_SECOND SIMCONNECT_DATA_REQUEST_FLAG_CHANGED ].

Definition is_open (c : HostCall) : bool :=
  match c with
  | SimConnect_Open _ => true
  | _ => false
  end.

Definition is_dispatch (c : HostCall) : bool :=
  match c with
  | SimConnect_CallDispatch _ => true
  | _ => false
  end.

Definition open_count (w : World) : nat := List.length (filter is_open (host_calls w)).

(* The state an open attempt at [now] leaves behind. *)
Definition after_attempt (now : Z) (host : OpenReply) (w : World) : World :=
  let b := set_simconnect_ (open_handle host)
             (set_last_connect_attempt_ms_ now (bridge w)) in
  if open_succeeded host then
    mkWorld (set_connected_ true b)
            (host_calls w ++ SimConnect_Open "OpenSquawkBridge" ::
               registration_calls (open_handle host))
  else mkWorld b (host_calls w ++ [SimConnect_Open "OpenSquawkBridge"]).

(* Section 6 of the specification: the keys of the serialized object in
   order, each with the number of fractional digits of its value. *)
Definition spec_members (s : TelemetrySnapshot.t) : list (string * nat * Double.t) :=
  [ ("latitude", 8%nat, TelemetrySnapshot.latitude_deg s);
    ("longitude", 8%nat, TelemetrySnapshot.longitude_deg s);
    ("altitude_ft_true", 2%nat, TelemetrySnapshot.altitude_ft_true s);
    ("altitude_ft_indicated", 2%nat, TelemetrySnapshot.altitude_ft_indicated s);
    ("ias_kt", 2%nat, TelemetrySnapshot.ias_kt s);
    ("tas_kt", 2%nat, TelemetrySnapshot.tas_kt s);
    ("ground_velocity_mps", 3%nat, TelemetrySnapshot.ground_velocity_mps s);
    ("turbine_n1_pct", 2%nat, TelemetrySnapshot.turbine_n1_pct s);
    ("on_ground", 0%nat, TelemetrySnapshot.on_ground s);
    ("engine_combustion", 0%nat, TelemetrySnapshot.engine_combustion s);
    ("transponder_code", 0%nat, TelemetrySnapshot.transponder_code s);
    ("adf_active_freq_khz", 3%nat, TelemetrySnapshot.adf_active_freq_khz s);
    ("adf_standby_freq_khz", 3%nat, TelemetrySnapshot.adf_standby_freq_khz s);
    ("vertical_speed_fpm", 1%nat, TelemetrySnapshot.vertical_speed_fpm s);
    ("pitch_deg", 2%nat, TelemetrySnapshot.pitch_deg s);
    ("turbine_n1_pct_2", 2%nat, TelemetrySnapshot.turbine_n1_pct_2 s);
    ("gear_handle", 0%nat, TelemetrySnapshot.gear_handle s);
    ("flaps_index", 0%nat, TelemetrySnapshot.flaps_index s);
    ("parking_brake", 0%nat, TelemetrySnapshot.parking_brake s);
    ("autopilot_master", 0%nat, TelemetrySnapshot.autopilot_master s) ]%string.

Definition spec_member (m : string * nat * Double.t) : string :=
  let '(key, digits, value) := m in
  (String Printf.dquote key ++ String Printf.dquote ":" ++ Printf.fmt_f digits value)%string.

(* The serialized object of section 6, whole. *)
Definition spec_snapshot_json (s : TelemetrySnapshot.t) : string :=
  ("{" ++ String.concat "," (map spec_member (spec_members s)) ++ "}")%string.

Definition TelemetryData_fields (d : TelemetryData.t) : list Double.t :=
  [ TelemetryData.latitude_deg d; TelemetryData.longitude_deg d;
    TelemetryData.altitude_ft_true d; TelemetryData.altitude_ft_indicated d;
    TelemetryData.ias_kt d; TelemetryData.tas_kt d;
    TelemetryData.ground_velocity_mps d; TelemetryData.turbine_n1_pct d;
    TelemetryData.on_ground d; TelemetryData.engine_combustion d;
    TelemetryData.transponder_code d; TelemetryData.adf_active_freq_khz d;
    TelemetryData.adf_standby_freq_khz d; TelemetryData.vertical_speed_fpm d;
    TelemetryData.pitch_deg d; TelemetryData.turbine_n1_pct_2 d;
    TelemetryData.gear_handle d; TelemetryData.flaps_index d;
    TelemetryData.parking_brake d; TelemetryData.autopilot_master d ].

(* What BuildSnapshotJson stores for a payload. *)
Definition built_json (s : TelemetrySnapshot.t) : string :=
  Printf.snprintf 1024 snapshot_format (TelemetrySnapshot.fields s).

(* The cache invariant: a valid snapshot comes with its serialization. *)
Definition cache_consistent (w : World) : Prop :=
  snapshot_valid_ (bridge w) = true ->
  snapshot_json_ (bridge w) = built_json (snapshot_ (bridge w)).

(* The clock reading of the EnsureConnected call an entry point makes. *)
Definition connect_clock (e : Export) : option Z :=
  match e with
  | osb_init now _ => Some now
  | osb_tick now _ _ => Some now
  | module_init now _ => Some now
  | _ => None
  end.

(* The readings of a steady clock: in range and never going back. *)
Fixpoint clock_monotone (prev : Z) (es : list Export) : Prop :=
  match es with
  | [] => True
  | e :: es' =>
      match connect_clock e with
      | Some t => prev <= t < U64.modulus /\ clock_monotone t es'
      | None => clock_monotone prev es'
      end
  end.

(* The readings at which a run issued SimConnect_Open, read off the trace. *)
Fixpoint attempt_times (es : list Export) (w : World) : list Z :=
  match es with
  | [] => []
  | e :: es' =>
      let w' := exec (step e) w in
      match connect_clock e with
      | Some t => if (open_count w <? open_count w')%nat then [t] else []
      | None => []
      end ++ attempt_times es' w'
  end.

(* Every time is at least the cooldown after the one before it. *)
Fixpoint spaced (prev : Z) (ts : list Z) : Prop :=
  match ts with
  | [] => True
  | t :: ts' => prev + kCooldownMs <= t /\ spaced t ts'
  end.

(** ** Scenarios *)

Definition host_up : OpenReply := mkOpenReply true 7.
Definition host_down : OpenReply := mkOpenReply false nullptr.

(* A reading on the ground in Zurich: 47.5 N, 8.5625 E, 1416.25 ft, squawk
   7000, ADF 375.5 and 1020 kHz, engines idling, gear down, brake set. *)
Definition sample_telemetry : TelemetryData.t :=
  TelemetryData.mk
    (Double.dyadic 95 (-1)) (Double.dyadic 137 (-4))
    (Double.dyadic 5665 (-2)) (Double.dyadic 2835 (-1))
    (Double.dyadic (-3) (-3)) Double.zero (Double.dyadic 1 (-4))
    (Double.dyadic 1685 (-3))
    Double.one Double.one (Double.of_int 7000)
    (Double.dyadic 751 (-1)) (Double.of_int 1020)
    (Double.dyadic (-25) (-2)) (Double.dyadic (-5) (-1))
    (Double.dyadic 1687 (-3))
    Double.one Double.zero Double.one Double.zero.

(* The largest power of two a double holds, about 9e307. *)
Definition huge : Double.t := Double.dyadic 1 1023.

(* A reading with four fields out of every realistic range. *)
Definition oversized_telemetry : TelemetryData.t :=
  TelemetryData.mk
    huge huge huge huge
    Double.zero Double.zero Double.zero Double.zero
    Double.zero Double.zero Double.zero Double.zero
    Double.zero Double.zero Double.zero Double.zero
    Double.zero Double.zero Double.zero Double.zero.

(* Connect at 5 s, then a tick that delivers one reading. *)
Definition sample_run : list Export :=
  [ osb_init 5000 host_up;
    osb_tick 5100 host_up
      [ (SIMCONNECT_RECV_ID_OPEN, 5100);
        (SIMCONNECT_RECV_ID_SIMOBJECT_DATA kRequestTelemetry sample_telemetry, 5100) ] ].

Definition oversized_run : list Export :=
  [ osb_init 5000 host_up;
    osb_tick 5100 host_up
      [ (SIMCONNECT_RECV_ID_SIMOBJECT_DATA kRequestTelemetry oversized_telemetry, 5100) ] ].

Definition connected_world : World := run [osb_init 5000 host_up] initial.

(** ** exports.cpp: what each entry point returns *)

Module Exports.
(* b ? 1 : 0 *)
Definition int_of_bool (b : bool) : Z := if b then 1 else 0.

Definition osb_init (now : Z) (host : OpenReply) : M Z :=
  ok <- EnsureConnected now host ;; ret (int_of_bool ok).

Definition osb_tick (now : Z) (host : OpenReply)
    (delivered : list (SIMCONNECT_RECV * Z)) : M unit :=
  Tick now host delivered.

Definition osb_is_connected : M Z :=
  c <- gets IsConnected ;; ret (int_of_bool c).

Definition osb_get_snapshot_json : M string := GetSnapshotJson.

Definition osb_get_snapshot_age_ms (now : Z) : M Z := gets (SnapshotAgeMs now).

Definition osb_set_transponder_code (code : Z) (hr : bool) : M Z :=
  ok <- SetTransponderCode code hr ;; ret (int_of_bool ok).

Definition osb_set_adf_active_khz (value_khz : Double.t) (hr : bool) : M Z :=
  ok <- SetAdfActiveKHz value_khz hr ;; ret (int_of_bool ok).

Definition osb_set_adf_standby_khz (value_khz : Double.t) (hr : bool) : M Z :=
  ok <- SetAdfStandbyKHz value_khz hr ;; ret (int_of_bool ok).

Definition osb_set_gear_handle (on : Z) (hr : bool) : M Z :=
  ok <- SetGearHandle (negb (on =? 0)) hr ;; ret (int_of_bool ok).

Definition osb_set_flaps_index (index : Z) (hr : bool) : M Z :=
  ok <- SetFlapsIndex index hr ;; ret (int_of_bool ok).

Definition osb_set_parking_brake (on : Z) (hr : bool) : M Z :=
  ok <- SetParkingBrake (negb (on =? 0)) hr ;; ret (int_of_bool ok).

Definition osb_set_autopilot_master (on : Z) (hr : bool) : M Z :=
  ok <- SetAutopilotMaster (negb (on =? 0)) hr ;; ret (int_of_bool ok).

Definition module_init (now : Z) (host : OpenReply) : M unit :=
  EnsureConnected now host ;; ret tt.

Definition module_deinit : M unit := Close.
End Exports.

(** ** Vocabulary of the further properties *)

(* A message the handler accepts as telemetry. *)
Definition is_telemetry (m : SIMCONNECT_RECV * Z) : bool :=
  match fst m with
  | SIMCONNECT_RECV_ID_SIMOBJECT_DATA dwRequestID _ => dwRequestID =? kRequestTelemetry
  | _ => false
  end.

(* An entry point call during which the host delivers telemetry. *)
Definition delivers_telemetry (e : Export) : bool :=
  match e with
  | osb_tick _ _ delivered => existsb is_telemetry delivered
  | _ => false
  end.

Definition is_registration (c : HostCall) : bool :=
  match c with
  | SimConnect_AddToDataDefinition _ _ _ _ => true
  | _ => false
  end.

Definition is_request (c : HostCall) : bool :=
  match c with
  | SimConnect_RequestDataOnSimObject _ _ _ _ _ _ => true
  | _ => false
  end.

(* The groups of host calls the bridge makes: a failed open; an open with
   the registrations and the request behind it; a dispatch; the close of a
   handle that is not null; one write of one datum to a write definition. *)
Inductive block : list HostCall -> Prop :=
| block_open_failed :
    block [SimConnect_Open "OpenSquawkBridge"]
| block_open_succeeded (h : HANDLE) :
    block (SimConnect_Open "OpenSquawkBridge" :: registration_calls h)
| block_dispatch (h : HANDLE) :
    block [SimConnect_CallDispatch h]
| block_close (h : HANDLE) :
    h <> nullptr -> block [SimConnect_Close h]
| block_write (h : HANDLE) (DefineID : DWORD) (value : Datum) :
    kDefTransponder <= DefineID <= kDefAutopilot ->
    block [SimConnect_SetDataOnSimObject h DefineID kUserObjectId 0 0 (sizeof value) value].

Inductive blocks : list HostCall -> Prop :=
| blocks_nil : blocks []
| blocks_cons (b rest : list HostCall) : block b -> blocks rest -> blocks (b ++ rest).

(* Before the first open: nothing sent, not connected, no handle. *)
Definition untouched (w : World) : Prop :=
  host_calls w = [] /\ connected_ (bridge w) = false /\ simconnect_ (bridge w) = nullptr.

Definition opened_first (w : World) : Prop :=
  exists rest, host_calls w = SimConnect_Open "OpenSquawkBridge" :: rest.

(** * Properties *)

Ltac run_m :=
  cbv [EnsureConnected Close GetSnapshotJson Tick HandleDispatch BuildSnapshotJson
       RequestTelemetry do_SimConnect_Open do_SetDataOnSimObject do_SimConnect_CallDispatch
       SetTransponderCode SetAdfActiveKHz SetAdfStandbyKHz SetGearHandle SetFlapsIndex
       SetParkingBrake SetAutopilotMaster exec result bind gets modify call ret].

Lemma u64_sub_monotone_clock (now last : Z) :
  U64.in_range now -> 0 <= last <= now -> U64.sub now last = now - last.
Proof.
  unfold U64.in_range, U64.sub, U64.wrap, U64.modulus.
  intros Hn Hl. apply Z.mod_small. lia.
Qed.

(** *** EnsureConnected, case by case *)

Lemma EnsureConnected_connected (now : Z) (host : OpenReply) (w : World) :
  connected_ (bridge w) = true -> EnsureConnected now host w = (true, w).
Proof. intros H. run_m. rewrite H. reflexivity. Qed.

Lemma EnsureConnected_cooldown (now : Z) (host : OpenReply) (w : World) :
  connected_ (bridge w) = false ->
  U64.sub now (last_connect_attempt_ms_ (bridge w)) < kCooldownMs ->
  EnsureConnected now host w = (false, w).
Proof.
  intros Hc Hlt. run_m. rewrite Hc.
  apply Z.ltb_lt in Hlt. rewrite Hlt. reflexivity.
Qed.

Lemma for_each_call {A : Type} (f : A -> HostCall) (l : list A) (w : World) :
  for_each l (fun d => call (f d)) w = (tt, mkWorld (bridge w) (host_calls w ++ map f l)).
Proof.
  revert w. induction l as [| a l IH]; intros w; simpl.
  - unfold ret. rewrite app_nil_r. destruct w; reflexivity.
  - unfold bind, call at 1. rewrite IH. simpl. rewrite <- app_assoc. reflexivity.
Qed.

Lemma EnsureConnected_attempt (now : Z) (host : OpenReply) (w : World) :
  connected_ (bridge w) = false ->
  kCooldownMs <= U64.sub now (last_connect_attempt_ms_ (bridge w)) ->
  EnsureConnected now host w = (open_succeeded host, after_attempt now host w).
Proof.
  intros Hc Hge. apply Z.ltb_ge in Hge.
  cbv [EnsureConnected do_SimConnect_Open RequestTelemetry bind gets modify ret].
  rewrite Hc, Hge.
  unfold after_attempt. destruct w as [b calls], host as [ok h].
  cbn [bridge host_calls open_succeeded open_handle fst snd call].
  destruct ok; [| reflexivity].
  rewrite !for_each_call.
  cbn [bridge host_calls simconnect_ set_connected_ set_simconnect_ call].
  unfold registration_calls.
  rewrite <- !app_assoc. reflexivity.
Qed.

(* The three ways a call of EnsureConnected can go. *)
Lemma EnsureConnected_cases (now : Z) (host : OpenReply) (w : World) :
  (connected_ (bridge w) = true /\ EnsureConnected now host w = (true, w)) \/
  (connected_ (bridge w) = false /\
   U64.sub now (last_connect_attempt_ms_ (bridge w)) < kCooldownMs /\
   EnsureConnected now host w = (false, w)) \/
  (connected_ (bridge w) = false /\
   kCooldownMs <= U64.sub now (last_connect_attempt_ms_ (bridge w)) /\
   EnsureConnected now host w = (open_succeeded host, after_attempt now host w)).
Proof.
  destruct (connected_ (bridge w)) eqn:Hc.
  - left. split; [reflexivity |]. now apply EnsureConnected_connected.
  - right.
    destruct (Z_lt_le_dec (U64.sub now (last_connect_attempt_ms_ (bridge w))) kCooldownMs)
      as [Hlt | Hge].
    + left. repeat split; [assumption |]. now apply EnsureConnected_cooldown.
    + right. repeat split; [assumption |]. now apply EnsureConnected_attempt.
Qed.

Lemma after_attempt_last (now : Z) (host : OpenReply) (w : World) :
  last_connect_attempt_ms_ (bridge (after_attempt now host w)) = now.
Proof. unfold after_attempt. destruct (open_succeeded host); reflexivity. Qed.

Lemma after_attempt_connected (now : Z) (host : OpenReply) (w : World) :
  connected_ (bridge w) = false ->
  connected_ (bridge (after_attempt now host w)) = open_succeeded host.
Proof.
  intros Hc. unfold after_attempt. destruct (open_succeeded host); [reflexivity |].
  exact Hc.
Qed.

Lemma after_attempt_cache (now : Z) (host : OpenReply) (w : World) :
  snapshot_ (bridge (after_attempt now host w)) = snapshot_ (bridge w) /\
  snapshot_valid_ (bridge (after_attempt now host w)) = snapshot_valid_ (bridge w) /\
  snapshot_ts_ms_ (bridge (after_attempt now host w)) = snapshot_ts_ms_ (bridge w) /\
  snapshot_json_ (bridge (after_attempt now host w)) = snapshot_json_ (bridge w).
Proof. unfold after_attempt. destruct (open_succeeded host); repeat split. Qed.

Lemma filter_is_open_registration (h : HANDLE) :
  filter is_open (registration_calls h) = [].
Proof. reflexivity. Qed.

Lemma after_attempt_opens (now : Z) (host : OpenReply) (w : World) :
  filter is_open (host_calls (after_attempt now host w)) =
  filter is_open (host_calls w) ++ [SimConnect_Open "OpenSquawkBridge"].
Proof.
  unfold after_attempt. destruct (open_succeeded host); cbn [host_calls];
    rewrite filter_app; [| reflexivity].
  cbn [filter is_open]. now rewrite filter_is_open_registration.
Qed.

(** *** Close *)

Lemma Close_eq (w : World) :
  Close w =
  (tt, mkWorld (set_snapshot_valid_ false
                  (set_connected_ false (set_simconnect_ nullptr (bridge w))))
               (host_calls w ++
                  if simconnect_ (bridge w) =? nullptr then []
                  else [SimConnect_Close (simconnect_ (bridge w))])).
Proof.
  run_m. destruct (simconnect_ (bridge w) =? nullptr); cbn [negb bridge host_calls].
  - now rewrite app_nil_r.
  - reflexivity.
Qed.

(** *** The setters *)

Lemma setter_connected (DefineID : DWORD) (value : Datum) (hr : bool) (w : World) :
  do_SetDataOnSimObject DefineID value hr w =
  (hr, mkWorld (bridge w)
         (host_calls w ++
            [SimConnect_SetDataOnSimObject (simconnect_ (bridge w)) DefineID
               kUserObjectId 0 0 (sizeof value) value])).
Proof. reflexivity. Qed.

(** *** The dispatch handler *)

Lemma HandleDispatch_data_eq (telemetry : TelemetryData.t) (now : Z) (w : World) :
  HandleDispatch (SIMCONNECT_RECV_ID_SIMOBJECT_DATA kRequestTelemetry telemetry) now w =
  (tt, mkWorld
         (mkBridge (simconnect_ (bridge w)) (connected_ (bridge w)) true now
                   (last_connect_attempt_ms_ (bridge w))
                   (assign_snapshot telemetry)
                   (built_json (assign_snapshot telemetry)))
         (host_calls w)).
Proof.
  cbv [HandleDispatch BuildSnapshotJson bind gets modify ret built_json
       TelemetrySnapshot.fields].
  rewrite Z.eqb_refl. cbn [negb bridge host_calls snapshot_ set_snapshot_
    set_snapshot_valid_ set_snapshot_ts_ms_ set_snapshot_json_ simconnect_ connected_
    snapshot_valid_ snapshot_ts_ms_ last_connect_attempt_ms_ snapshot_json_].
  reflexivity.
Qed.

Lemma HandleDispatch_other_request (req : DWORD) (telemetry : TelemetryData.t)
      (now : Z) (w : World) :
  req <> kRequestTelemetry ->
  HandleDispatch (SIMCONNECT_RECV_ID_SIMOBJECT_DATA req telemetry) now w = (tt, w).
Proof.
  intros Hne. cbv [HandleDispatch].
  apply Z.eqb_neq in Hne. rewrite Hne. reflexivity.
Qed.

(* Whatever the message, the handler leaves the attempt timestamp alone and
   opens nothing. *)
Lemma HandleDispatch_frame (data : SIMCONNECT_RECV) (now : Z) (w : World) :
  last_connect_attempt_ms_ (bridge (exec (HandleDispatch data now) w)) =
    last_connect_attempt_ms_ (bridge w) /\
  filter is_open (host_calls (exec (HandleDispatch data now) w)) =
    filter is_open (host_calls w).
Proof.
  destruct data as [| | req telemetry | id]; unfold exec.
  - split; reflexivity.
  - cbn [HandleDispatch]. rewrite Close_eq. cbn [snd bridge host_calls].
    split; [reflexivity |].
    rewrite filter_app. destruct (simconnect_ (bridge w) =? nullptr); cbn [filter is_open];
      now rewrite app_nil_r.
  - destruct (Z.eq_dec req kRequestTelemetry) as [-> | Hne].
    + rewrite HandleDispatch_data_eq. split; reflexivity.
    + rewrite HandleDispatch_other_request by assumption. split; reflexivity.
  - split; reflexivity.
Qed.

Lemma pump_frame (delivered : list (SIMCONNECT_RECV * Z)) (w : World) :
  last_connect_attempt_ms_
    (bridge (exec (for_each delivered (fun m => HandleDispatch (fst m) (snd m))) w)) =
    last_connect_attempt_ms_ (bridge w) /\
  filter is_open
    (host_calls (exec (for_each delivered (fun m => HandleDispatch (fst m) (snd m))) w)) =
    filter is_open (host_calls w).
Proof.
  revert w. induction delivered as [| m rest IH]; intros w.
  - split; reflexivity.
  - cbn [for_each]. unfold exec, bind.
    destruct (HandleDispatch (fst m) (snd m) w) as [u w1] eqn:Hm.
    destruct (IH w1) as [IHl IHo]. unfold exec in IHl, IHo.
    destruct (HandleDispatch_frame (fst m) (snd m) w) as [Hl Ho].
    unfold exec in Hl, Ho. rewrite Hm in Hl, Ho. cbn [snd] in Hl, Ho.
    split; congruence.
Qed.

(** C3. A data message whose request identifier is that of the bulk
    telemetry request overwrites the twenty payload fields, in the declared
    order, with the twenty values of the message, marks the snapshot valid,
    stamps the clock reading, and stores the rebuilt serialization; it
    touches nothing else.  A data message with any other request identifier
    leaves the whole bridge as it was. *)
Theorem HandleDispatch_data_event
    (req : DWORD) (telemetry : TelemetryData.t) (now : Z) (w : World) :
  let w' := exec (HandleDispatch (SIMCONNECT_RECV_ID_SIMOBJECT_DATA req telemetry) now) w in
  (if req =? kRequestTelemetry then
     TelemetrySnapshot.fields (snapshot_ (bridge w')) = TelemetryData_fields telemetry /\
     snapshot_valid_ (bridge w') = true /\
     snapshot_ts_ms_ (bridge w') = now /\
     snapshot_json_ (bridge w') = built_json (snapshot_ (bridge w')) /\
     simconnect_ (bridge w') = simconnect_ (bridge w) /\
     connected_ (bridge w') = connected_ (bridge w) /\
     last_connect_attempt_ms_ (bridge w') = last_connect_attempt_ms_ (bridge w) /\
     host_calls w' = host_calls w
   else w' = w).
Proof.
  intros w'. subst w'. unfold exec.
  destruct (req =? kRequestTelemetry) eqn:Hreq.
  - apply Z.eqb_eq in Hreq. subst req. rewrite HandleDispatch_data_eq.
    cbn [snd bridge host_calls snapshot_ snapshot_valid_ snapshot_ts_ms_ snapshot_json_
         simconnect_ connected_ last_connect_attempt_ms_].
    repeat split.
  - apply Z.eqb_neq in Hreq. now rewrite HandleDispatch_other_request.
Qed.

(** C4. While the bridge is disconnected every setter returns false and
    hands back the world it was given: no call reaches the host and no
    member of the bridge changes. *)
Theorem setters_disconnected
    (w : World) (code index : Z) (value_khz : Double.t) (on hr : bool) :
  connected_ (bridge w) = false ->
  SetTransponderCode code hr w = (false, w) /\
  SetAdfActiveKHz value_khz hr w = (false, w) /\
  SetAdfStandbyKHz value_khz hr w = (false, w) /\
  SetGearHandle on hr w = (false, w) /\
  SetFlapsIndex index hr w = (false, w) /\
  SetParkingBrake on hr w = (false, w) /\
  SetAutopilotMaster on hr w = (false, w).
Proof.
  intros Hc. run_m. rewrite Hc. cbn [negb]. repeat split.
Qed.

Lemma setters_disconnected_witness :
  connected_ (bridge initial) = false /\
  SetTransponderCode 7000 true initial = (false, initial).
Proof.
  split; [reflexivity |].
  exact (proj1 (setters_disconnected initial 7000 0 Double.zero true true eq_refl)).
Defined.

Lemma Close_fields (w : World) :
  connected_ (bridge (exec Close w)) = false /\
  snapshot_valid_ (bridge (exec Close w)) = false /\
  snapshot_ (bridge (exec Close w)) = snapshot_ (bridge w).
Proof. unfold exec. rewrite Close_eq. repeat split. Qed.

(** C7. Close always leaves the bridge disconnected with the snapshot
    marked invalid, keeps the twenty payload fields as they were, and a
    second Close changes nothing more. *)
Theorem Close_invalidates_and_is_idempotent (w : World) :
  connected_ (bridge (exec Close w)) = false /\
  snapshot_valid_ (bridge (exec Close w)) = false /\
  snapshot_ (bridge (exec Close w)) = snapshot_ (bridge w) /\
  exec Close (exec Close w) = exec Close w.
Proof.
  unfold exec. rewrite !Close_eq. cbn [snd bridge host_calls simconnect_ set_simconnect_
    set_connected_ set_snapshot_valid_ connected_ snapshot_valid_ snapshot_
    snapshot_ts_ms_ last_connect_attempt_ms_ snapshot_json_].
  repeat split.
  rewrite Z.eqb_refl, app_nil_r. reflexivity.
Qed.

(* A bridge at rest is a fixed point of Close. *)
Lemma Close_at_rest (w : World) :
  simconnect_ (bridge w) = nullptr ->
  connected_ (bridge w) = false ->
  snapshot_valid_ (bridge w) = false ->
  exec Close w = w.
Proof.
  intros Hh Hc Hv. unfold exec. rewrite Close_eq. cbn [snd].
  destruct w as [[h c v ts last s j] calls]. cbn in *. subst.
  rewrite app_nil_r. reflexivity.
Qed.

(** C8. The snapshot age is 0 without a valid snapshot; with one it is the
    clock reading minus the snapshot timestamp when the reading is not
    earlier, and 0 when it is earlier: never negative, never wrapped. *)
Theorem SnapshotAgeMs_clamped (now : Z) (b : Bridge) :
  U64.in_range now ->
  U64.in_range (snapshot_ts_ms_ b) ->
  SnapshotAgeMs now b =
    (if snapshot_valid_ b then Z.max 0 (now - snapshot_ts_ms_ b) else 0) /\
  0 <= SnapshotAgeMs now b <= now.
Proof.
  unfold U64.in_range, SnapshotAgeMs. intros Hn Ht.
  destruct (snapshot_valid_ b); cbn [negb]; [| lia].
  destruct (now >=? snapshot_ts_ms_ b) eqn:Hge.
  - apply Z.geb_ge in Hge.
    rewrite u64_sub_monotone_clock by (unfold U64.in_range; lia). lia.
  - rewrite Z.geb_leb in Hge. apply Z.leb_gt in Hge. lia.
Qed.

Lemma SnapshotAgeMs_clamped_witness :
  SnapshotAgeMs 1500 (set_snapshot_valid_ true (set_snapshot_ts_ms_ 2000 Bridge_default)) = 0 /\
  SnapshotAgeMs 2500 (set_snapshot_valid_ true (set_snapshot_ts_ms_ 2000 Bridge_default)) = 500.
Proof.
  split.
  - rewrite (proj1 (SnapshotAgeMs_clamped 1500
               (set_snapshot_valid_ true (set_snapshot_ts_ms_ 2000 Bridge_default))
               ltac:(unfold U64.in_range, U64.modulus; lia)
               ltac:(unfold U64.in_range, U64.modulus; cbn; lia))).
    reflexivity.
  - rewrite (proj1 (SnapshotAgeMs_clamped 2500
               (set_snapshot_valid_ true (set_snapshot_ts_ms_ 2000 Bridge_default))
               ltac:(unfold U64.in_range, U64.modulus; lia)
               ltac:(unfold U64.in_range, U64.modulus; cbn; lia))).
    reflexivity.
Defined.

(** *** The cooldown *)

(** C2. A call of EnsureConnected on a disconnected bridge, made fewer
    than 2000 ms after the recorded attempt, returns false and hands back
    the world it was given: SimConnect_Open is not called. *)
Theorem EnsureConnected_within_cooldown (now : Z) (host : OpenReply) (w : World) :
  connected_ (bridge w) = false ->
  U64.in_range now ->
  0 <= last_connect_attempt_ms_ (bridge w) <= now ->
  now - last_connect_attempt_ms_ (bridge w) < 2000 ->
  EnsureConnected now host w = (false, w) /\
  filter is_open (host_calls (exec (EnsureConnected now host) w)) =
    filter is_open (host_calls w).
Proof.
  intros Hc Hn Hl Hlt.
  assert (E : EnsureConnected now host w = (false, w)).
  { apply EnsureConnected_cooldown; [assumption |].
    rewrite u64_sub_monotone_clock by assumption. exact Hlt. }
  split; [exact E |]. unfold exec. now rewrite E.
Qed.

Lemma EnsureConnected_within_cooldown_witness :
  EnsureConnected 1999 (mkOpenReply true 7) initial = (false, initial).
Proof.
  refine (proj1 (EnsureConnected_within_cooldown 1999 (mkOpenReply true 7) initial
                   eq_refl _ _ _)).
  - unfold U64.in_range, U64.modulus. lia.
  - cbn. lia.
  - cbn. lia.
Defined.

(* The two outcomes of a call: an early return, or a stamped attempt. *)
Lemma EnsureConnected_outcome (now : Z) (host : OpenReply) (w : World) :
  let w' := exec (EnsureConnected now host) w in
  ((connected_ (bridge w) = true \/
    U64.sub now (last_connect_attempt_ms_ (bridge w)) < 2000) /\
   w' = w) \/
  (connected_ (bridge w) = false /\
   2000 <= U64.sub now (last_connect_attempt_ms_ (bridge w)) /\
   last_connect_attempt_ms_ (bridge w') = now /\
   filter is_open (host_calls w') =
     filter is_open (host_calls w) ++ [SimConnect_Open "OpenSquawkBridge"]).
Proof.
  intros w'. subst w'. unfold exec.
  destruct (EnsureConnected_cases now host w) as [[Hc E] | [[Hc [Hlt E]] | [Hc [Hge E]]]];
    rewrite E; cbn [snd].
  - left. split; [now left | reflexivity].
  - left. split; [now right | reflexivity].
  - right. split; [assumption |]. split; [assumption |].
    split; [apply after_attempt_last | apply after_attempt_opens].
Qed.

(** C9. A call of EnsureConnected either returns early, because the bridge
    is connected or the cooldown is running, and then hands back the world
    it was given, attempt timestamp included; or it sets the timestamp to
    the clock reading and calls SimConnect_Open.  The timestamp changes in
    no other way. *)
Theorem EnsureConnected_stamps_only_attempts (now : Z) (host : OpenReply) (w : World) :
  let w' := exec (EnsureConnected now host) w in
  ((connected_ (bridge w) = true \/
    U64.sub now (last_connect_attempt_ms_ (bridge w)) < 2000) /\
   w' = w /\
   last_connect_attempt_ms_ (bridge w') = last_connect_attempt_ms_ (bridge w) /\
   filter is_open (host_calls w') = filter is_open (host_calls w)) \/
  (connected_ (bridge w) = false /\
   2000 <= U64.sub now (last_connect_attempt_ms_ (bridge w)) /\
   last_connect_attempt_ms_ (bridge w') = now /\
   filter is_open (host_calls w') =
     filter is_open (host_calls w) ++ [SimConnect_Open "OpenSquawkBridge"]).
Proof.
  intros w'. subst w'.
  destruct (EnsureConnected_outcome now host w) as [[Hearly Hsame] | Hattempt].
  - left. rewrite Hsame. repeat split; assumption.
  - right. exact Hattempt.
Qed.

(** *** Tick *)

Lemma Tick_disconnected (now : Z) (host : OpenReply)
      (delivered : list (SIMCONNECT_RECV * Z)) (w : World) :
  connected_ (bridge (exec (EnsureConnected now host) w)) = false ->
  exec (Tick now host delivered) w = exec (EnsureConnected now host) w.
Proof.
  unfold exec, Tick, bind, gets.
  destruct (EnsureConnected now host w) as [r w1]. cbn [snd].
  intros ->. reflexivity.
Qed.

Lemma Tick_connected (now : Z) (host : OpenReply)
      (delivered : list (SIMCONNECT_RECV * Z)) (w : World) :
  connected_ (bridge (exec (EnsureConnected now host) w)) = true ->
  exec (Tick now host delivered) w =
  exec (do_SimConnect_CallDispatch delivered) (exec (EnsureConnected now host) w).
Proof.
  unfold exec, Tick, bind, gets.
  destruct (EnsureConnected now host w) as [r w1]. cbn [snd].
  intros ->. reflexivity.
Qed.

Lemma EnsureConnected_cache (now : Z) (host : OpenReply) (w : World) :
  snapshot_ (bridge (exec (EnsureConnected now host) w)) = snapshot_ (bridge w) /\
  snapshot_valid_ (bridge (exec (EnsureConnected now host) w)) = snapshot_valid_ (bridge w) /\
  snapshot_ts_ms_ (bridge (exec (EnsureConnected now host) w)) = snapshot_ts_ms_ (bridge w) /\
  snapshot_json_ (bridge (exec (EnsureConnected now host) w)) = snapshot_json_ (bridge w).
Proof.
  unfold exec.
  destruct (EnsureConnected_cases now host w) as [[Hc E] | [[Hc [Hlt E]] | [Hc [Hge E]]]];
    rewrite E; cbn [snd]; try (repeat split; reflexivity).
  apply after_attempt_cache.
Qed.

(** C10. A tick in which EnsureConnected leaves the bridge disconnected
    ends there: the messages the host would deliver are not looked at,
    SimConnect_CallDispatch is not called, and the payload, the valid flag,
    the timestamp and the serialization of the snapshot are those from
    before the tick. *)
Theorem Tick_disconnected_no_pump (now : Z) (host : OpenReply)
      (delivered : list (SIMCONNECT_RECV * Z)) (w : World) :
  connected_ (bridge (exec (EnsureConnected now host) w)) = false ->
  let w' := exec (Tick now host delivered) w in
  w' = exec (Tick now host []) w /\
  filter is_dispatch (host_calls w') = filter is_dispatch (host_calls w) /\
  snapshot_ (bridge w') = snapshot_ (bridge w) /\
  snapshot_valid_ (bridge w') = snapshot_valid_ (bridge w) /\
  snapshot_ts_ms_ (bridge w') = snapshot_ts_ms_ (bridge w) /\
  snapshot_json_ (bridge w') = snapshot_json_ (bridge w).
Proof.
  intros Hd w'. subst w'.
  rewrite !(Tick_disconnected now host) by exact Hd.
  split; [reflexivity |].
  split; [| apply EnsureConnected_cache].
  revert Hd. unfold exec.
  destruct (EnsureConnected_cases now host w) as [[Hc E] | [[Hc [Hlt E]] | [Hc [Hge E]]]];
    rewrite E; cbn [snd]; try reflexivity.
  rewrite after_attempt_connected by assumption.
  intros Hok. unfold after_attempt. rewrite Hok. cbn [host_calls].
  rewrite filter_app. cbn [filter is_dispatch]. now rewrite app_nil_r.
Qed.

Lemma Tick_disconnected_no_pump_witness :
  exec (Tick 5000 (mkOpenReply false 0)
          [(SIMCONNECT_RECV_ID_QUIT, 5000)]) initial =
  exec (Tick 5000 (mkOpenReply false 0) []) initial.
Proof.
  exact (proj1 (Tick_disconnected_no_pump 5000 (mkOpenReply false 0)
                  [(SIMCONNECT_RECV_ID_QUIT, 5000)] initial eq_refl)).
Defined.

(** *** What each entry point leaves alone *)

Ltac setter_frame w :=
  run_m; destruct (connected_ (bridge w)); cbn [negb snd bridge host_calls];
  (split; [reflexivity |]);
  try reflexivity;
  rewrite filter_app; cbn [filter is_open]; now rewrite app_nil_r.

Lemma SetTransponderCode_frame (code : Z) (hr : bool) (w : World) :
  bridge (exec (SetTransponderCode code hr) w) = bridge w /\
  filter is_open (host_calls (exec (SetTransponderCode code hr) w)) =
    filter is_open (host_calls w).
Proof. setter_frame w. Qed.

Lemma SetAdfActiveKHz_frame (v : Double.t) (hr : bool) (w : World) :
  bridge (exec (SetAdfActiveKHz v hr) w) = bridge w /\
  filter is_open (host_calls (exec (SetAdfActiveKHz v hr) w)) =
    filter is_open (host_calls w).
Proof. setter_frame w. Qed.

Lemma SetAdfStandbyKHz_frame (v : Double.t) (hr : bool) (w : World) :
  bridge (exec (SetAdfStandbyKHz v hr) w) = bridge w /\
  filter is_open (host_calls (exec (SetAdfStandbyKHz v hr) w)) =
    filter is_open (host_calls w).
Proof. setter_frame w. Qed.

Lemma SetGearHandle_frame (on hr : bool) (w : World) :
  bridge (exec (SetGearHandle on hr) w) = bridge w /\
  filter is_open (host_calls (exec (SetGearHandle on hr) w)) =
    filter is_open (host_calls w).
Proof. setter_frame w. Qed.

Lemma SetFlapsIndex_frame (index : Z) (hr : bool) (w : World) :
  bridge (exec (SetFlapsIndex index hr) w) = bridge w /\
  filter is_open (host_calls (exec (SetFlapsIndex index hr) w)) =
    filter is_open (host_calls w).
Proof. setter_frame w. Qed.

Lemma SetParkingBrake_frame (on hr : bool) (w : World) :
  bridge (exec (SetParkingBrake on hr) w) = bridge w /\
  filter is_open (host_calls (exec (SetParkingBrake on hr) w)) =
    filter is_open (host_calls w).
Proof. setter_frame w. Qed.

Lemma SetAutopilotMaster_frame (on hr : bool) (w : World) :
  bridge (exec (SetAutopilotMaster on hr) w) = bridge w /\
  filter is_open (host_calls (exec (SetAutopilotMaster on hr) w)) =
    filter is_open (host_calls w).
Proof. setter_frame w. Qed.

Lemma exec_then_ret {A : Type} (m : M A) (w : World) :
  exec (m ;; ret tt) w = exec m w.
Proof. unfold exec, bind, ret. destruct (m w). reflexivity. Qed.

Lemma GetSnapshotJson_frame (w : World) :
  last_connect_attempt_ms_ (bridge (exec GetSnapshotJson w)) =
    last_connect_attempt_ms_ (bridge w) /\
  host_calls (exec GetSnapshotJson w) = host_calls w /\
  snapshot_valid_ (bridge (exec GetSnapshotJson w)) = snapshot_valid_ (bridge w) /\
  snapshot_ (bridge (exec GetSnapshotJson w)) = snapshot_ (bridge w) /\
  (snapshot_valid_ (bridge w) = true ->
   snapshot_json_ (bridge (exec GetSnapshotJson w)) = snapshot_json_ (bridge w)).
Proof.
  run_m. destruct (snapshot_valid_ (bridge w)) eqn:Hv; cbn [negb snd bridge host_calls];
    repeat split; intros; try reflexivity; try discriminate; cbn; congruence.
Qed.

Lemma Close_frame (w : World) :
  last_connect_attempt_ms_ (bridge (exec Close w)) = last_connect_attempt_ms_ (bridge w) /\
  filter is_open (host_calls (exec Close w)) = filter is_open (host_calls w).
Proof.
  unfold exec. rewrite Close_eq. cbn [snd bridge host_calls]. split; [reflexivity |].
  rewrite filter_app. destruct (simconnect_ (bridge w) =? nullptr); cbn [filter is_open];
    now rewrite app_nil_r.
Qed.

(* An entry point that does not call EnsureConnected keeps the attempt
   timestamp and opens nothing. *)
Lemma step_frame (e : Export) (w : World) :
  connect_clock e = None ->
  last_connect_attempt_ms_ (bridge (exec (step e) w)) = last_connect_attempt_ms_ (bridge w) /\
  filter is_open (host_calls (exec (step e) w)) = filter is_open (host_calls w).
Proof.
  destruct e; cbn [connect_clock step]; intros Hclock; try discriminate;
    try rewrite exec_then_ret.
  - split; reflexivity.
  - destruct (GetSnapshotJson_frame w) as (Hl & Hcalls & _). now rewrite Hcalls.
  - split; reflexivity.
  - destruct (SetTransponderCode_frame code hr w) as [Hb Ho]. now rewrite Hb.
  - destruct (SetAdfActiveKHz_frame value_khz hr w) as [Hb Ho]. now rewrite Hb.
  - destruct (SetAdfStandbyKHz_frame value_khz hr w) as [Hb Ho]. now rewrite Hb.
  - destruct (SetGearHandle_frame (negb (on =? 0)) hr w) as [Hb Ho]. now rewrite Hb.
  - destruct (SetFlapsIndex_frame index hr w) as [Hb Ho]. now rewrite Hb.
  - destruct (SetParkingBrake_frame (negb (on =? 0)) hr w) as [Hb Ho]. now rewrite Hb.
  - destruct (SetAutopilotMaster_frame (negb (on =? 0)) hr w) as [Hb Ho]. now rewrite Hb.
  - apply Close_frame.
Qed.

Lemma CallDispatch_frame (delivered : list (SIMCONNECT_RECV * Z)) (w : World) :
  last_connect_attempt_ms_ (bridge (exec (do_SimConnect_CallDispatch delivered) w)) =
    last_connect_attempt_ms_ (bridge w) /\
  filter is_open (host_calls (exec (do_SimConnect_CallDispatch delivered) w)) =
    filter is_open (host_calls w).
Proof.
  unfold do_SimConnect_CallDispatch, exec, bind, gets, call.
  pose proof (pump_frame delivered
                (mkWorld (bridge w)
                   (host_calls w ++ [SimConnect_CallDispatch (simconnect_ (bridge w))])))
    as [Hl Ho].
  unfold exec in Hl, Ho. rewrite Hl, Ho. cbn [bridge host_calls].
  split; [reflexivity |].
  rewrite filter_app. cbn [filter is_open]. now rewrite app_nil_r.
Qed.

(* An entry point that calls EnsureConnected changes the timestamp and the
   opens exactly as that call does. *)
Lemma step_connect (e : Export) (t : Z) (w : World) :
  connect_clock e = Some t ->
  exists host,
    last_connect_attempt_ms_ (bridge (exec (step e) w)) =
      last_connect_attempt_ms_ (bridge (exec (EnsureConnected t host) w)) /\
    filter is_open (host_calls (exec (step e) w)) =
      filter is_open (host_calls (exec (EnsureConnected t host) w)).
Proof.
  destruct e; cbn [connect_clock step]; intros Hclock; try discriminate;
    injection Hclock as ->; exists host; try rewrite exec_then_ret;
    try (split; reflexivity).
  destruct (connected_ (bridge (exec (EnsureConnected t host) w))) eqn:Hc.
  - rewrite Tick_connected by exact Hc. apply CallDispatch_frame.
  - rewrite Tick_disconnected by exact Hc. split; reflexivity.
Qed.

Lemma open_count_app_one (w w' : World) (c : HostCall) :
  filter is_open (host_calls w') = filter is_open (host_calls w) ++ [c] ->
  (open_count w <? open_count w')%nat = true.
Proof.
  unfold open_count. intros ->. rewrite length_app. cbn [List.length].
  apply Nat.ltb_lt. lia.
Qed.

Lemma open_count_same (w w' : World) :
  filter is_open (host_calls w') = filter is_open (host_calls w) ->
  (open_count w <? open_count w')%nat = false.
Proof. unfold open_count. intros ->. apply Nat.ltb_irrefl. Qed.

(** X6. Under a steady clock every two consecutive open attempts of a run
    of entry points are at least the cooldown apart, and the first is at
    least the cooldown after the timestamp the run started from, whatever
    the host answers and whatever else is called in between. *)
Theorem open_attempts_spaced (es : list Export) :
  forall (w : World) (clock : Z),
    0 <= last_connect_attempt_ms_ (bridge w) <= clock ->
    clock_monotone clock es ->
    spaced (last_connect_attempt_ms_ (bridge w)) (attempt_times es w).
Proof.
  induction es as [| e es IH]; intros w clock Hlast Hclock; cbn [attempt_times spaced];
    [exact I |].
  cbn [clock_monotone] in Hclock.
  destruct (connect_clock e) as [t |] eqn:He.
  - destruct Hclock as [Ht Hclock].
    destruct (step_connect e t w He) as (host & Hl & Ho).
    pose proof (EnsureConnected_outcome t host w) as Hcase.
    cbv zeta in Hcase.
    destruct Hcase as [[_ Hsame] | (Hc & Hge & Hstamp & Hopens)].
    + rewrite Hsame in Hl, Ho.
      rewrite (open_count_same _ _ Ho). cbn [app].
      rewrite <- Hl. apply (IH _ t); [rewrite Hl; lia | exact Hclock].
    + rewrite Hopens in Ho. rewrite Hstamp in Hl.
      rewrite (open_count_app_one _ _ _ Ho). cbn [app spaced].
      rewrite u64_sub_monotone_clock in Hge by (unfold U64.in_range; lia).
      split; [unfold kCooldownMs; lia |].
      rewrite <- Hl. apply (IH _ t); [rewrite Hl; lia | exact Hclock].
  - destruct (step_frame e w He) as [Hl Ho]. cbn [app].
    rewrite <- Hl. apply (IH _ clock); [rewrite Hl; lia | exact Hclock].
Qed.

Lemma last_cons_default {A : Type} (l : list A) (a d : A) :
  List.last (a :: l) d = List.last l a.
Proof.
  revert a d. induction l as [| b l IH]; intros a d; [reflexivity |].
  change (List.last (a :: b :: l) d) with (List.last (b :: l) d).
  rewrite (IH b d), (IH b a). reflexivity.
Qed.

(** X7. The attempt timestamp after a run of entry points is the clock
    reading of the latest open attempt of the run, and the timestamp the
    run started from when it made none. *)
Theorem last_attempt_is_recorded (es : list Export) :
  forall w : World,
    last_connect_attempt_ms_ (bridge (run es w)) =
    List.last (attempt_times es w) (last_connect_attempt_ms_ (bridge w)).
Proof.
  induction es as [| e es IH]; intros w; cbn [run attempt_times]; [reflexivity |].
  rewrite IH.
  destruct (connect_clock e) as [t |] eqn:He.
  - destruct (step_connect e t w He) as (host & Hl & Ho).
    pose proof (EnsureConnected_outcome t host w) as Hcase.
    cbv zeta in Hcase.
    destruct Hcase as [[_ Hsame] | (Hc & Hge & Hstamp & Hopens)].
    + rewrite Hsame in Hl, Ho.
      rewrite (open_count_same _ _ Ho). cbn [app]. now rewrite Hl.
    + rewrite Hopens in Ho. rewrite Hstamp in Hl.
      rewrite (open_count_app_one _ _ _ Ho). cbn [app].
      rewrite last_cons_default. now rewrite Hl.
  - destruct (step_frame e w He) as [Hl Ho]. cbn [app]. now rewrite Hl.
Qed.

(** *** Quit and reconnection *)

Lemma HandleDispatch_extends (data : SIMCONNECT_RECV) (now : Z) (w : World) :
  exists rest, host_calls (exec (HandleDispatch data now) w) = host_calls w ++ rest.
Proof.
  destruct data as [| | req telemetry | id]; unfold exec.
  - exists []. cbn. now rewrite app_nil_r.
  - cbn [HandleDispatch]. rewrite Close_eq. cbn [snd host_calls]. eauto.
  - exists []. rewrite app_nil_r.
    destruct (Z.eq_dec req kRequestTelemetry) as [-> | Hne].
    + now rewrite HandleDispatch_data_eq.
    + now rewrite HandleDispatch_other_request.
  - exists []. cbn. now rewrite app_nil_r.
Qed.

Lemma pump_extends (delivered : list (SIMCONNECT_RECV * Z)) (w : World) :
  exists rest,
    host_calls (exec (for_each delivered (fun m => HandleDispatch (fst m) (snd m))) w) =
    host_calls w ++ rest.
Proof.
  revert w. induction delivered as [| m ms IH]; intros w.
  - exists []. cbn. now rewrite app_nil_r.
  - cbn [for_each]. unfold exec, bind.
    destruct (HandleDispatch_extends (fst m) (snd m) w) as [r1 H1]. unfold exec in H1.
    destruct (HandleDispatch (fst m) (snd m) w) as [u w1]. cbn [snd] in H1.
    destruct (IH w1) as [r2 H2]. unfold exec in H2.
    exists (r1 ++ r2). rewrite H2, H1. now rewrite app_assoc.
Qed.

Lemma CallDispatch_extends (delivered : list (SIMCONNECT_RECV * Z)) (w : World) :
  exists rest,
    host_calls (exec (do_SimConnect_CallDispatch delivered) w) =
    host_calls w ++ SimConnect_CallDispatch (simconnect_ (bridge w)) :: rest.
Proof.
  unfold do_SimConnect_CallDispatch, exec, bind, gets, call.
  destruct (pump_extends delivered
              (mkWorld (bridge w)
                 (host_calls w ++ [SimConnect_CallDispatch (simconnect_ (bridge w))])))
    as [rest H].
  unfold exec in H. exists rest. rewrite H. cbn [host_calls].
  now rewrite <- app_assoc.
Qed.

(** C6. A quit message makes the handler run Close: the bridge is
    disconnected and the snapshot invalid.  A tick that then comes at least
    2000 ms after the recorded attempt calls SimConnect_Open; when the open
    succeeds the bridge is connected again and the calls that follow the
    open are, in order and on the new handle, the twenty registrations of
    the bulk definition (define id 1), one registration for each of the
    seven write definitions (define ids 10 to 16), the request for
    telemetry of the user object (request 1 on definition 1, every second,
    on change) and the dispatch call; when the open fails the open is the
    only call. *)
Theorem quit_then_tick_reconnects
    (w : World) (quit_time now : Z) (host : OpenReply)
    (delivered : list (SIMCONNECT_RECV * Z)) :
  let w1 := exec (HandleDispatch SIMCONNECT_RECV_ID_QUIT quit_time) w in
  U64.in_range now ->
  0 <= last_connect_attempt_ms_ (bridge w) ->
  last_connect_attempt_ms_ (bridge w) + 2000 <= now ->
  w1 = exec Close w /\
  connected_ (bridge w1) = false /\
  snapshot_valid_ (bridge w1) = false /\
  connected_ (bridge (exec (EnsureConnected now host) w1)) = open_succeeded host /\
  exists rest,
    host_calls (exec (Tick now host delivered) w1) =
    host_calls w1 ++
    SimConnect_Open "OpenSquawkBridge" ::
    (if open_succeeded host
     then
       [ SimConnect_AddToDataDefinition (open_handle host) 1 "PLANE LATITUDE" "degrees";
         SimConnect_AddToDataDefinition (open_handle host) 1 "PLANE LONGITUDE" "degrees";
         SimConnect_AddToDataDefinition (open_handle host) 1 "PLANE ALTITUDE" "feet";
         SimConnect_AddToDataDefinition (open_handle host) 1 "INDICATED ALTITUDE" "feet";
         SimConnect_AddToDataDefinition (open_handle host) 1 "AIRSPEED INDICATED" "knots";
         SimConnect_AddToDataDefinition (open_handle host) 1 "AIRSPEED TRUE" "knots";
         SimConnect_AddToDataDefinition (open_handle host) 1 "GROUND VELOCITY"
           "meters per second";
         SimConnect_AddToDataDefinition (open_handle host) 1 "TURB ENG N1:1" "percent";
         SimConnect_AddToDataDefinition (open_handle host) 1 "SIM ON GROUND" "bool";
         SimConnect_AddToDataDefinition (open_handle host) 1 "ENG COMBUSTION:1" "bool";
         SimConnect_AddToDataDefinition (open_handle host) 1 "TRANSPONDER CODE:1" "bco16";
         SimConnect_AddToDataDefinition (open_handle host) 1 "ADF ACTIVE FREQUENCY:1"
           "kilohertz";
         SimConnect_AddToDataDefinition (open_handle host) 1 "ADF STANDBY FREQUENCY:1"
           "kilohertz";
         SimConnect_AddToDataDefinition (open_handle host) 1 "VERTICAL SPEED"
           "feet per minute";
         SimConnect_AddToDataDefinition (open_handle host) 1 "PLANE PITCH DEGREES" "degrees";
         SimConnect_AddToDataDefinition (open_handle host) 1 "TURB ENG N1:2" "percent";
         SimConnect_AddToDataDefinition (open_handle host) 1 "GEAR HANDLE POSITION" "bool";
         SimConnect_AddToDataDefinition (open_handle host) 1 "FLAPS HANDLE INDEX" "number";
         SimConnect_AddToDataDefinition (open_handle host) 1 "BRAKE PARKING POSITION" "bool";
         SimConnect_AddToDataDefinition (open_handle host) 1 "AUTOPILOT MASTER" "bool";
         SimConnect_AddToDataDefinition (open_handle host) 10 "TRANSPONDER CODE:1" "bco16";
         SimConnect_AddToDataDefinition (open_handle host) 11 "ADF ACTIVE FREQUENCY:1"
           "kilohertz";
         SimConnect_AddToDataDefinition (open_handle host) 12 "ADF STANDBY FREQUENCY:1"
           "kilohertz";
         SimConnect_AddToDataDefinition (open_handle host) 13 "GEAR HANDLE POSITION" "bool";
         SimConnect_AddToDataDefinition (open_handle host) 14 "FLAPS HANDLE INDEX" "number";
         SimConnect_AddToDataDefinition (open_handle host) 15 "BRAKE PARKING POSITION" "bool";
         SimConnect_AddToDataDefinition (open_handle host) 16 "AUTOPILOT MASTER" "bool";
         SimConnect_RequestDataOnSimObject (open_handle host) 1 1 SIMCONNECT_OBJECT_ID_USER
           SIMCONNECT_PERIOD_SECOND SIMCONNECT_DATA_REQUEST_FLAG_CHANGED;
         SimConnect_CallDispatch (open_handle host) ] ++ rest
     else []).
Proof.
  intros w1 Hn Hl0 Hl. subst w1. cbn [HandleDispatch].
  destruct (Close_fields w) as (Hc & Hv & _).
  destruct (Close_frame w) as [Hlast _].
  split; [reflexivity |]. split; [exact Hc |]. split; [exact Hv |].
  assert (E : EnsureConnected now host (exec Close w) =
              (open_succeeded host, after_attempt now host (exec Close w))).
  { apply EnsureConnected_attempt; [exact Hc |].
    rewrite Hlast, u64_sub_monotone_clock by (try assumption; lia).
    unfold kCooldownMs. lia. }
  assert (Ex : exec (EnsureConnected now host) (exec Close w) =
               after_attempt now host (exec Close w)).
  { unfold exec at 1. now rewrite E. }
  split; [rewrite Ex; now apply after_attempt_connected |].
  destruct (open_succeeded host) eqn:Hok.
  - assert (Hconn : connected_ (bridge (exec (EnsureConnected now host) (exec Close w))) = true).
    { rewrite Ex, after_attempt_connected by exact Hc. exact Hok. }
    rewrite Tick_connected by exact Hconn. rewrite Ex.
    destruct (CallDispatch_extends delivered (after_attempt now host (exec Close w)))
      as [rest H].
    exists rest. rewrite H. unfold after_attempt. rewrite Hok.
    cbn [host_calls bridge simconnect_ set_connected_ set_simconnect_].
    rewrite <- app_assoc. cbn [app]. reflexivity.
  - assert (Hconn : connected_ (bridge (exec (EnsureConnected now host) (exec Close w))) = false).
    { rewrite Ex, after_attempt_connected by exact Hc. exact Hok. }
    exists []. rewrite Tick_disconnected by exact Hconn. rewrite Ex.
    unfold after_attempt. rewrite Hok. reflexivity.
Qed.

Lemma quit_then_tick_reconnects_witness :
  connected_
    (bridge
       (exec (EnsureConnected 7000 (mkOpenReply true 9))
          (exec (HandleDispatch SIMCONNECT_RECV_ID_QUIT 6000) connected_world))) = true.
Proof.
  refine (proj1 (proj2 (proj2 (proj2
            (quit_then_tick_reconnects connected_world 6000 7000 (mkOpenReply true 9) []
               _ _ _))))).
  - unfold U64.in_range, U64.modulus. lia.
  - vm_compute. discriminate.
  - vm_compute. discriminate.
Defined.

(** *** The serialized snapshot *)

Lemma string_append_assoc (a b c : string) :
  ((a ++ b) ++ c = a ++ (b ++ c))%string.
Proof. induction a as [| ch a IH]; cbn [String.append]; [reflexivity | now rewrite IH]. Qed.

(* The format string of BuildSnapshotJson, applied to the payload in member
   order, spells the object of section 6. *)
Lemma format_is_spec_snapshot_json (s : TelemetrySnapshot.t) :
  Printf.format snapshot_format (TelemetrySnapshot.fields s) = spec_snapshot_json s.
Proof.
  destruct s.
  cbv - [Printf.fmt_f String.append].
  rewrite !string_append_assoc.
  cbn [String.append]. 
  reflexivity.
Qed.

Lemma take_whole (n : nat) (s : string) :
  (String.length s <= n)%nat -> Printf.take n s = s.
Proof.
  revert n. induction s as [| c s IH]; intros n Hlen.
  - destruct n; reflexivity.
  - destruct n as [| n]; cbn [String.length] in Hlen; [lia |].
    cbn [Printf.take]. rewrite IH by lia. reflexivity.
Qed.

Lemma take_length (n : nat) (s : string) :
  (String.length (Printf.take n s) <= n)%nat.
Proof.
  revert s. induction n as [| n IH]; intros s; [destruct s; cbn; lia |].
  destruct s as [| c s]; cbn [Printf.take String.length]; [lia |].
  specialize (IH s). lia.
Qed.

(* What BuildSnapshotJson stores: the first 1023 characters of the object. *)
Lemma built_json_is_truncated_spec (s : TelemetrySnapshot.t) :
  built_json s = Printf.take 1023 (spec_snapshot_json s).
Proof.
  unfold built_json, Printf.snprintf. rewrite format_is_spec_snapshot_json.
  reflexivity.
Qed.

(** *** The cache invariant *)

Lemma HandleDispatch_cache (data : SIMCONNECT_RECV) (now : Z) (w : World) :
  cache_consistent w -> cache_consistent (exec (HandleDispatch data now) w).
Proof.
  intros Hw. destruct data as [| | req telemetry | id]; unfold exec.
  - exact Hw.
  - cbn [HandleDispatch]. rewrite Close_eq. intros Hv. discriminate Hv.
  - destruct (Z.eq_dec req kRequestTelemetry) as [-> | Hne].
    + rewrite HandleDispatch_data_eq. intros _. reflexivity.
    + rewrite HandleDispatch_other_request by assumption. exact Hw.
  - exact Hw.
Qed.

Lemma pump_cache (delivered : list (SIMCONNECT_RECV * Z)) (w : World) :
  cache_consistent w ->
  cache_consistent (exec (for_each delivered (fun m => HandleDispatch (fst m) (snd m))) w).
Proof.
  revert w. induction delivered as [| m ms IH]; intros w Hw; [exact Hw |].
  cbn [for_each]. unfold exec, bind.
  pose proof (HandleDispatch_cache (fst m) (snd m) w Hw) as H1. unfold exec in H1.
  destruct (HandleDispatch (fst m) (snd m) w) as [u w1]. cbn [snd] in H1.
  exact (IH w1 H1).
Qed.

Lemma cache_consistent_same_bridge (w w' : World) :
  bridge w' = bridge w -> cache_consistent w -> cache_consistent w'.
Proof. unfold cache_consistent. intros ->. trivial. Qed.

Lemma EnsureConnected_keeps_cache (now : Z) (host : OpenReply) (w : World) :
  cache_consistent w -> cache_consistent (exec (EnsureConnected now host) w).
Proof.
  unfold cache_consistent.
  destruct (EnsureConnected_cache now host w) as (Hs & Hv & _ & Hj).
  rewrite Hs, Hv, Hj. trivial.
Qed.

Lemma step_cache (e : Export) (w : World) :
  cache_consistent w -> cache_consistent (exec (step e) w).
Proof.
  intros Hw. destruct e; cbn [step]; try rewrite exec_then_ret.
  - now apply EnsureConnected_keeps_cache.
  - destruct (connected_ (bridge (exec (EnsureConnected now host) w))) eqn:Hc.
    + rewrite Tick_connected by exact Hc.
      unfold do_SimConnect_CallDispatch, exec at 1, bind, gets, call.
      apply pump_cache.
      apply (cache_consistent_same_bridge (exec (EnsureConnected now host) w));
        [reflexivity | now apply EnsureConnected_keeps_cache].
    + rewrite Tick_disconnected by exact Hc. now apply EnsureConnected_keeps_cache.
  - exact Hw.
  - destruct (GetSnapshotJson_frame w) as (_ & _ & Hv & Hs & Hj).
    unfold cache_consistent. rewrite Hv, Hs. intros Hvalid.
    rewrite (Hj Hvalid). exact (Hw Hvalid).
  - exact Hw.
  - apply (cache_consistent_same_bridge w); [apply SetTransponderCode_frame | exact Hw].
  - apply (cache_consistent_same_bridge w); [apply SetAdfActiveKHz_frame | exact Hw].
  - apply (cache_consistent_same_bridge w); [apply SetAdfStandbyKHz_frame | exact Hw].
  - apply (cache_consistent_same_bridge w); [apply SetGearHandle_frame | exact Hw].
  - apply (cache_consistent_same_bridge w); [apply SetFlapsIndex_frame | exact Hw].
  - apply (cache_consistent_same_bridge w); [apply SetParkingBrake_frame | exact Hw].
  - apply (cache_consistent_same_bridge w); [apply SetAutopilotMaster_frame | exact Hw].
  - now apply EnsureConnected_keeps_cache.
  - unfold exec. rewrite Close_eq. intros Hv. discriminate Hv.
Qed.

Lemma run_cache (es : list Export) (w : World) :
  cache_consistent w -> cache_consistent (run es w).
Proof.
  revert w. induction es as [| e es IH]; intros w Hw; [exact Hw |].
  cbn [run]. apply IH. now apply step_cache.
Qed.

(* Every state the entry points can reach has a consistent cache. *)
Lemma reachable_cache_consistent (w : World) :
  reachable w -> cache_consistent w.
Proof.
  intros [es ->]. apply run_cache. intros Hv. discriminate Hv.
Qed.

Lemma GetSnapshotJson_result (w : World) :
  result GetSnapshotJson w =
  if snapshot_valid_ (bridge w) then snapshot_json_ (bridge w) else "{}"%string.
Proof.
  run_m. destruct (snapshot_valid_ (bridge w)); reflexivity.
Qed.

(** C1 (as the code has it).  In every state the entry points can reach,
    GetSnapshotJson returns the two characters of the empty object when no
    snapshot is valid, and otherwise the first 1023 characters of the
    object of section 6 rendered from the twenty cached fields: the whole
    object whenever it is no longer than that. *)
Theorem GetSnapshotJson_reachable (w : World) :
  reachable w ->
  result GetSnapshotJson w =
    (if snapshot_valid_ (bridge w)
     then Printf.take 1023 (spec_snapshot_json (snapshot_ (bridge w)))
     else "{}"%string) /\
  (snapshot_valid_ (bridge w) = true ->
   (String.length (spec_snapshot_json (snapshot_ (bridge w))) <= 1023)%nat ->
   result GetSnapshotJson w = spec_snapshot_json (snapshot_ (bridge w))).
Proof.
  intros Hr. pose proof (reachable_cache_consistent w Hr) as Hcache.
  rewrite GetSnapshotJson_result. split.
  - destruct (snapshot_valid_ (bridge w)) eqn:Hv; [| reflexivity].
    rewrite (Hcache Hv). apply built_json_is_truncated_spec.
  - intros Hv Hlen. rewrite Hv, (Hcache Hv), built_json_is_truncated_spec.
    now apply take_whole.
Qed.

Lemma sample_run_reachable : reachable (run sample_run initial).
Proof. exists sample_run. reflexivity. Defined.

Lemma GetSnapshotJson_reachable_witness :
  result GetSnapshotJson (run sample_run initial) =
  spec_snapshot_json (snapshot_ (bridge (run sample_run initial))).
Proof.
  refine (proj2 (GetSnapshotJson_reachable (run sample_run initial) sample_run_reachable) _ _).
  - vm_compute. reflexivity.
  - apply Nat.leb_le. vm_compute. reflexivity.
Defined.

(** C1 as stated fails: after a reading with four fields near the top of
    the double range the snapshot is valid, but what GetSnapshotJson returns
    is 1023 characters long and is not the object of section 6, which takes
    1656 characters. *)
Lemma GetSnapshotJson_truncates_oversized :
  reachable (run oversized_run initial) /\
  forallb Double.valid (TelemetryData_fields oversized_telemetry) = true /\
  snapshot_valid_ (bridge (run oversized_run initial)) = true /\
  String.length (result GetSnapshotJson (run oversized_run initial)) = 1023%nat /\
  String.length (spec_snapshot_json (snapshot_ (bridge (run oversized_run initial)))) = 1656%nat /\
  result GetSnapshotJson (run oversized_run initial) <>
  spec_snapshot_json (snapshot_ (bridge (run oversized_run initial))).
Proof.
  assert (L1 : String.length (result GetSnapshotJson (run oversized_run initial)) = 1023%nat)
    by (vm_compute; reflexivity).
  assert (L2 : String.length
                 (spec_snapshot_json (snapshot_ (bridge (run oversized_run initial)))) = 1656%nat)
    by (vm_compute; reflexivity).
  split; [exists oversized_run; reflexivity |].
  split; [vm_compute; reflexivity |].
  split; [vm_compute; reflexivity |].
  split; [exact L1 |]. split; [exact L2 |].
  intros Heq. rewrite Heq, L2 in L1. discriminate L1.
Qed.

(** *** What the setters write *)

Lemma setters_connected
    (w : World) (code index : Z) (value_khz : Double.t) (on hr : bool) :
  connected_ (bridge w) = true ->
  SetTransponderCode code hr w =
    do_SetDataOnSimObject kDefTransponder (uint32_datum (U32.of_int code)) hr w /\
  SetAdfActiveKHz value_khz hr w =
    do_SetDataOnSimObject kDefAdfActive (double_datum value_khz) hr w /\
  SetAdfStandbyKHz value_khz hr w =
    do_SetDataOnSimObject kDefAdfStandby (double_datum value_khz) hr w /\
  SetGearHandle on hr w =
    do_SetDataOnSimObject kDefGearHandle
      (double_datum (if on then Double.one else Double.zero)) hr w /\
  SetFlapsIndex index hr w =
    do_SetDataOnSimObject kDefFlapsIndex (double_datum (Double.of_int index)) hr w /\
  SetParkingBrake on hr w =
    do_SetDataOnSimObject kDefParkingBrake
      (double_datum (if on then Double.one else Double.zero)) hr w /\
  SetAutopilotMaster on hr w =
    do_SetDataOnSimObject kDefAutopilot
      (double_datum (if on then Double.one else Double.zero)) hr w.
Proof.
  intros Hc.
  cbv [SetTransponderCode SetAdfActiveKHz SetAdfStandbyKHz SetGearHandle SetFlapsIndex
       SetParkingBrake SetAutopilotMaster bind gets].
  rewrite Hc. cbn [negb]. repeat split.
Qed.

(* The six setters other than SetTransponderCode hand the host a double,
   the type their write definition was registered with. *)
Lemma double_setters_match_definition (value_khz : Double.t) (index : Z) (on : bool) :
  datum_has_type (double_datum value_khz) default_DatumType = true /\
  datum_has_type (double_datum (Double.of_int index)) default_DatumType = true /\
  datum_has_type (double_datum (if on then Double.one else Double.zero))
    default_DatumType = true /\
  sizeof (double_datum value_khz) = datatype_size default_DatumType.
Proof. repeat split. Qed.

(* 1.0 and 0.0 as binary64 values, and as %.0f prints them. *)
Lemma boolean_encoding :
  Double.one = Double.F754_finite false 4503599627370496 (-52) /\
  Double.zero = Double.F754_zero false /\
  Printf.fmt_f 1 Double.one = "1.0"%string /\
  Printf.fmt_f 1 Double.zero = "0.0"%string.
Proof. repeat split. Qed.

(* The conversion of SetFlapsIndex is exact on small indices. *)
Lemma flaps_index_encoding :
  map (fun i => Printf.fmt_f 1 (Double.of_int i)) [0; 1; 2; 3; 4; -1] =
  ["0.0"; "1.0"; "2.0"; "3.0"; "4.0"; "-1.0"]%string.
Proof. vm_compute. reflexivity. Qed.

(* Whatever the code, SetTransponderCode hands the host a 4-byte unsigned
   integer, which is not an object of the type of its write definition. *)
Lemma SetTransponderCode_datum (code : Z) (hr : bool) (w : World) :
  connected_ (bridge w) = true ->
  host_calls (exec (SetTransponderCode code hr) w) =
    host_calls w ++
    [SimConnect_SetDataOnSimObject (simconnect_ (bridge w)) kDefTransponder kUserObjectId
       0 0 4 (uint32_datum (code mod 2 ^ 32))] /\
  datum_has_type (uint32_datum (code mod 2 ^ 32)) default_DatumType = false.
Proof.
  intros Hc. unfold exec.
  rewrite (proj1 (setters_connected w code 0 Double.zero false hr Hc)).
  rewrite setter_connected. split; reflexivity.
Qed.

(** C5, at the input where the code departs from it.  On a connected
    bridge, whose write definition for the transponder code was registered
    like every field of the bulk definition and so holds a 64-bit float,
    SetTransponderCode 7000 writes one unit of 4 bytes holding the unsigned
    integer 7000, where the definition takes 8 bytes holding a double.  The
    three boolean setters do write the doubles 1.0 and 0.0. *)
Theorem SetTransponderCode_writes_uint32 :
  connected_ (bridge connected_world) = true /\
  In (SimConnect_AddToDataDefinition 7 kDefTransponder "TRANSPONDER CODE:1" "bco16")
     (host_calls connected_world) /\
  In (SimConnect_AddToDataDefinition 7 kDefTelemetry "TRANSPONDER CODE:1" "bco16")
     (host_calls connected_world) /\
  host_calls (exec (SetTransponderCode 7000 true) connected_world) =
    host_calls connected_world ++
    [SimConnect_SetDataOnSimObject 7 kDefTransponder kUserObjectId 0 0 4
       (uint32_datum 7000)] /\
  datum_has_type (uint32_datum 7000) default_DatumType = false /\
  sizeof (uint32_datum 7000) <> datatype_size default_DatumType /\
  host_calls (exec (SetFlapsIndex 2 true) connected_world) =
    host_calls connected_world ++
    [SimConnect_SetDataOnSimObject 7 kDefFlapsIndex kUserObjectId 0 0 8
       (double_datum (Double.of_int 2))] /\
  (forall on : bool,
     host_calls (exec (SetGearHandle on true) connected_world) =
       host_calls connected_world ++
       [SimConnect_SetDataOnSimObject 7 kDefGearHandle kUserObjectId 0 0 8
          (double_datum (if on then Double.one else Double.zero))] /\
     host_calls (exec (SetParkingBrake on true) connected_world) =
       host_calls connected_world ++
       [SimConnect_SetDataOnSimObject 7 kDefParkingBrake kUserObjectId 0 0 8
          (double_datum (if on then Double.one else Double.zero))] /\
     host_calls (exec (SetAutopilotMaster on true) connected_world) =
       host_calls connected_world ++
       [SimConnect_SetDataOnSimObject 7 kDefAutopilot kUserObjectId 0 0 8
          (double_datum (if on then Double.one else Double.zero))]).
Proof.
  split; [reflexivity |].
  split; [vm_compute; tauto |].
  split; [vm_compute; tauto |].
  split; [reflexivity |].
  split; [reflexivity |].
  split; [vm_compute; discriminate |].
  split; [reflexivity |].
  intros on. repeat split.
Qed.

(** * Further properties *)

(** *** The connection *)

Lemma EnsureConnected_result (now : Z) (host : OpenReply) (w : World) :
  result (EnsureConnected now host) w =
  connected_ (bridge (exec (EnsureConnected now host) w)).
Proof.
  unfold result, exec.
  destruct (EnsureConnected_cases now host w) as [[Hc E] | [[Hc [Hlt E]] | [Hc [Hge E]]]];
    rewrite E; cbn [fst snd]; try congruence.
  now rewrite after_attempt_connected.
Qed.

(** X1. What osb_init returns is what osb_is_connected returns right after
    it: EnsureConnected reports the connection state it leaves behind. *)
Theorem osb_init_reports_connection (now : Z) (host : OpenReply) (w : World) :
  result (Exports.osb_init now host) w =
    result Exports.osb_is_connected (exec (Exports.osb_init now host) w) /\
  result (EnsureConnected now host) w =
    IsConnected (bridge (exec (EnsureConnected now host) w)).
Proof.
  pose proof (EnsureConnected_result now host w) as H.
  split; [| exact H].
  unfold result, exec in *.
  cbv [Exports.osb_init Exports.osb_is_connected bind gets ret IsConnected].
  destruct (EnsureConnected now host w) as [ok w1]. cbn [fst snd] in *.
  now rewrite H.
Qed.

(** X2. An open attempt that fails makes one host call, the open itself,
    leaves the bridge disconnected, and starts the cooldown: a call made
    less than 2000 ms later returns false and reaches the host with
    nothing, whatever the host would answer. *)
Theorem failed_open_starts_cooldown
    (now later : Z) (host host' : OpenReply) (w : World) :
  connected_ (bridge w) = false ->
  kCooldownMs <= U64.sub now (last_connect_attempt_ms_ (bridge w)) ->
  open_succeeded host = false ->
  0 <= now <= later ->
  later < now + 2000 ->
  later < U64.modulus ->
  let w1 := exec (EnsureConnected now host) w in
  result (EnsureConnected now host) w = false /\
  connected_ (bridge w1) = false /\
  host_calls w1 = host_calls w ++ [SimConnect_Open "OpenSquawkBridge"] /\
  EnsureConnected later host' w1 = (false, w1).
Proof.
  intros Hc Hge Hfail Hnow Hlater Hrange w1. subst w1. unfold result, exec.
  rewrite (EnsureConnected_attempt now host w Hc Hge). cbn [fst snd].
  split; [exact Hfail |].
  assert (Hc1 : connected_ (bridge (after_attempt now host w)) = false).
  { rewrite after_attempt_connected by exact Hc. exact Hfail. }
  split; [exact Hc1 |].
  split; [unfold after_attempt; rewrite Hfail; reflexivity |].
  apply EnsureConnected_cooldown; [exact Hc1 |].
  rewrite after_attempt_last.
  rewrite u64_sub_monotone_clock by (unfold U64.in_range; lia).
  unfold kCooldownMs. lia.
Qed.

Lemma failed_open_starts_cooldown_witness :
  EnsureConnected 6999 host_up (exec (EnsureConnected 5000 host_down) initial) =
  (false, exec (EnsureConnected 5000 host_down) initial).
Proof.
  refine (proj2 (proj2 (proj2
            (failed_open_starts_cooldown 5000 6999 host_down host_up initial
               eq_refl _ eq_refl _ _ _)))).
  - vm_compute. discriminate.
  - lia.
  - lia.
  - unfold U64.modulus. lia.
Defined.

(** X4. On a fresh bridge the attempt timestamp is 0, so the first call
    of EnsureConnected opens only when the clock reads 2000 or more: it
    returns whether the reading is that late and the open succeeded, and
    before that it makes no host call. *)
Theorem first_call_waits_for_clock (now : Z) (host : OpenReply) :
  U64.in_range now ->
  result (EnsureConnected now host) initial = (2000 <=? now) && open_succeeded host /\
  (now < 2000 -> exec (EnsureConnected now host) initial = initial) /\
  (2000 <= now ->
   filter is_open (host_calls (exec (EnsureConnected now host) initial)) =
     [SimConnect_Open "OpenSquawkBridge"]).
Proof.
  intros Hn.
  assert (Hsub : U64.sub now (last_connect_attempt_ms_ (bridge initial)) = now).
  { cbn [initial bridge Bridge_default last_connect_attempt_ms_].
    rewrite u64_sub_monotone_clock by (unfold U64.in_range in *; lia). lia. }
  unfold result, exec.
  destruct (Z_lt_le_dec now 2000) as [Hlt | Hge].
  - rewrite (EnsureConnected_cooldown now host initial eq_refl)
      by (rewrite Hsub; exact Hlt).
    cbn [fst snd]. apply Z.leb_gt in Hlt. rewrite Hlt.
    split; [reflexivity |]. split; [reflexivity |]. apply Z.leb_gt in Hlt. lia.
  - rewrite (EnsureConnected_attempt now host initial eq_refl)
      by (rewrite Hsub; exact Hge).
    cbn [fst snd]. pose proof Hge as Hge'. apply Z.leb_le in Hge'. rewrite Hge'.
    split; [reflexivity |]. split; [lia |]. intros _.
    rewrite after_attempt_opens. reflexivity.
Qed.

Lemma first_call_waits_for_clock_witness :
  result (EnsureConnected 1999 host_up) initial = false /\
  result (EnsureConnected 2000 host_up) initial = true.
Proof.
  split.
  - refine (proj1 (first_call_waits_for_clock 1999 host_up _)).
    unfold U64.in_range, U64.modulus. lia.
  - refine (proj1 (first_call_waits_for_clock 2000 host_up _)).
    unfold U64.in_range, U64.modulus. lia.
Defined.

(** X5. The cooldown is decided on the unsigned difference.  When the
    clock reads earlier than the recorded attempt, by no more than
    2^64 - 2000, the difference wraps to at least 2000 and the call makes
    an attempt: it stamps the reading and calls SimConnect_Open. *)
Theorem earlier_reading_attempts (now : Z) (host : OpenReply) (w : World) :
  connected_ (bridge w) = false ->
  0 <= now < last_connect_attempt_ms_ (bridge w) ->
  last_connect_attempt_ms_ (bridge w) < U64.modulus ->
  last_connect_attempt_ms_ (bridge w) - now <= U64.modulus - 2000 ->
  let w1 := exec (EnsureConnected now host) w in
  result (EnsureConnected now host) w = open_succeeded host /\
  last_connect_attempt_ms_ (bridge w1) = now /\
  filter is_open (host_calls w1) =
    filter is_open (host_calls w) ++ [SimConnect_Open "OpenSquawkBridge"].
Proof.
  intros Hc Hnow Hlast Hgap w1. subst w1. unfold result, exec.
  assert (Hsub : U64.sub now (last_connect_attempt_ms_ (bridge w)) =
                 now - last_connect_attempt_ms_ (bridge w) + U64.modulus).
  { unfold U64.sub, U64.wrap.
    rewrite <- (Z.mod_add _ 1 U64.modulus) by (unfold U64.modulus; lia).
    rewrite Z.mul_1_l. apply Z.mod_small. unfold U64.modulus in *. lia. }
  rewrite (EnsureConnected_attempt now host w Hc)
    by (rewrite Hsub; unfold kCooldownMs; lia).
  cbn [fst snd]. split; [reflexivity |].
  split; [apply after_attempt_last | apply after_attempt_opens].
Qed.

Lemma earlier_reading_attempts_witness :
  last_connect_attempt_ms_
    (bridge (exec (EnsureConnected 4000 host_down)
               (exec (EnsureConnected 5000 host_down) initial))) = 4000.
Proof.
  refine (proj1 (proj2
            (earlier_reading_attempts 4000 host_down
               (exec (EnsureConnected 5000 host_down) initial) eq_refl _ _ _))).
  - vm_compute. split; [discriminate | reflexivity].
  - vm_compute. reflexivity.
  - vm_compute. discriminate.
Defined.

(** *** The cache *)

(** X8. Reading the snapshot twice returns the same string twice, and the
    second read leaves the bridge as the first left it. *)
Theorem GetSnapshotJson_repeatable (w : World) :
  result GetSnapshotJson (exec GetSnapshotJson w) = result GetSnapshotJson w /\
  exec GetSnapshotJson (exec GetSnapshotJson w) = exec GetSnapshotJson w.
Proof.
  unfold result, exec. cbv [GetSnapshotJson bind gets modify ret].
  destruct w as [b calls]. cbn [bridge host_calls].
  destruct (snapshot_valid_ b) eqn:Hv; cbn [negb fst snd bridge host_calls];
    cbn [set_snapshot_json_ snapshot_valid_ snapshot_json_]; rewrite ?Hv; cbn [negb fst snd];
    split; reflexivity.
Qed.

(** X9. In every state the entry points can reach, the string returned by
    GetSnapshotJson has at most 1023 characters. *)
Theorem GetSnapshotJson_length_bound (w : World) :
  reachable w ->
  (String.length (result GetSnapshotJson w) <= 1023)%nat.
Proof.
  intros Hr. rewrite GetSnapshotJson_result.
  destruct (snapshot_valid_ (bridge w)) eqn:Hv.
  - rewrite (reachable_cache_consistent w Hr Hv), built_json_is_truncated_spec.
    apply take_length.
  - cbn. lia.
Qed.

Lemma GetSnapshotJson_length_bound_witness :
  (String.length (result GetSnapshotJson (run oversized_run initial)) <= 1023)%nat.
Proof.
  apply GetSnapshotJson_length_bound. exists oversized_run. reflexivity.
Defined.

(** X10. After Close, from whatever state: the bridge reports no
    connection and no snapshot, the snapshot reads as the empty object, its
    age is 0 at every clock reading, and a tick that comes within the
    cooldown does nothing at all. *)
Theorem after_Close (w : World) (now : Z) (host : OpenReply)
    (delivered : list (SIMCONNECT_RECV * Z)) :
  let w1 := exec Exports.module_deinit w in
  IsConnected (bridge w1) = false /\
  HasSnapshot (bridge w1) = false /\
  result Exports.osb_get_snapshot_json w1 = "{}"%string /\
  result (Exports.osb_get_snapshot_age_ms now) w1 = 0 /\
  (U64.sub now (last_connect_attempt_ms_ (bridge w)) < kCooldownMs ->
   exec (Exports.osb_tick now host delivered) w1 = w1).
Proof.
  intros w1. subst w1. unfold Exports.module_deinit.
  destruct (Close_fields w) as (Hc & Hv & _).
  destruct (Close_frame w) as [Hlast _].
  split; [exact Hc |]. split; [exact Hv |].
  split.
  { unfold Exports.osb_get_snapshot_json. rewrite GetSnapshotJson_result.
    now rewrite Hv. }
  split.
  { unfold Exports.osb_get_snapshot_age_ms, result, gets, SnapshotAgeMs. cbn [fst].
    now rewrite Hv. }
  intros Hcool. unfold Exports.osb_tick.
  assert (E : EnsureConnected now host (exec Close w) = (false, exec Close w)).
  { apply EnsureConnected_cooldown; [exact Hc | now rewrite Hlast]. }
  rewrite Tick_disconnected; unfold exec at 1; rewrite E; [reflexivity | exact Hc].
Qed.

Lemma after_Close_witness :
  exec (Exports.osb_tick 6000 host_up []) (exec Exports.module_deinit connected_world) =
  exec Exports.module_deinit connected_world.
Proof.
  refine (proj2 (proj2 (proj2 (proj2
            (after_Close connected_world 6000 host_up [])))) _).
  vm_compute. reflexivity.
Defined.

(** X11. The age of a snapshot never decreases as the clock advances. *)
Theorem SnapshotAgeMs_monotone (now1 now2 : Z) (b : Bridge) :
  U64.in_range now1 ->
  U64.in_range now2 ->
  U64.in_range (snapshot_ts_ms_ b) ->
  now1 <= now2 ->
  SnapshotAgeMs now1 b <= SnapshotAgeMs now2 b.
Proof.
  unfold U64.in_range, SnapshotAgeMs. intros H1 H2 Ht Hle.
  destruct (snapshot_valid_ b); cbn [negb]; [| lia].
  destruct (now1 >=? snapshot_ts_ms_ b) eqn:G1, (now2 >=? snapshot_ts_ms_ b) eqn:G2;
    rewrite ?Z.geb_leb in *;
    repeat match goal with
           | H : (_ <=? _) = true |- _ => apply Z.leb_le in H
           | H : (_ <=? _) = false |- _ => apply Z.leb_gt in H
           end;
    rewrite ?u64_sub_monotone_clock by (unfold U64.in_range; lia); lia.
Qed.

Lemma SnapshotAgeMs_monotone_witness :
  SnapshotAgeMs 5100 (bridge (run sample_run initial)) <=
  SnapshotAgeMs 9000 (bridge (run sample_run initial)).
Proof.
  apply SnapshotAgeMs_monotone.
  - unfold U64.in_range, U64.modulus. lia.
  - unfold U64.in_range, U64.modulus. lia.
  - vm_compute. split; [discriminate | reflexivity].
  - lia.
Defined.

(** X12. An accepted reading resets the age: after the handler took a
    telemetry message at clock reading t, the bridge has a snapshot whose
    age is 0 at t and later - t at every later reading. *)
Theorem accepted_reading_resets_age
    (telemetry : TelemetryData.t) (t later : Z) (w : World) :
  0 <= t <= later ->
  later < U64.modulus ->
  let w1 := exec (HandleDispatch
                    (SIMCONNECT_RECV_ID_SIMOBJECT_DATA kRequestTelemetry telemetry) t) w in
  HasSnapshot (bridge w1) = true /\
  SnapshotAgeMs t (bridge w1) = 0 /\
  SnapshotAgeMs later (bridge w1) = later - t.
Proof.
  intros Ht Hlater w1. subst w1. unfold exec. rewrite HandleDispatch_data_eq.
  cbn [snd bridge]. unfold HasSnapshot, SnapshotAgeMs.
  cbn [snapshot_valid_ snapshot_ts_ms_ negb].
  split; [reflexivity |].
  assert (G1 : (t >=? t) = true) by (rewrite Z.geb_leb; apply Z.leb_refl).
  assert (G2 : (later >=? t) = true) by (rewrite Z.geb_leb; apply Z.leb_le; lia).
  rewrite G1, G2.
  rewrite !u64_sub_monotone_clock by (unfold U64.in_range; lia).
  split; lia.
Qed.

Lemma accepted_reading_resets_age_witness :
  SnapshotAgeMs 5350
    (bridge (exec (HandleDispatch
                     (SIMCONNECT_RECV_ID_SIMOBJECT_DATA kRequestTelemetry sample_telemetry)
                     5100) connected_world)) = 250.
Proof.
  refine (proj2 (proj2
            (accepted_reading_resets_age sample_telemetry 5100 5350 connected_world _ _))).
  - lia.
  - unfold U64.modulus. lia.
Defined.

(** X13. The cache holds the last accepted reading only: taking a second
    telemetry message leaves the bridge exactly as if the first had never
    come. *)
Theorem last_reading_wins
    (first second : TelemetryData.t) (t1 t2 : Z) (w : World) :
  exec (HandleDispatch (SIMCONNECT_RECV_ID_SIMOBJECT_DATA kRequestTelemetry second) t2)
    (exec (HandleDispatch (SIMCONNECT_RECV_ID_SIMOBJECT_DATA kRequestTelemetry first) t1) w) =
  exec (HandleDispatch (SIMCONNECT_RECV_ID_SIMOBJECT_DATA kRequestTelemetry second) t2) w.
Proof.
  unfold exec. rewrite !HandleDispatch_data_eq. reflexivity.
Qed.

Lemma HandleDispatch_without_telemetry (m : SIMCONNECT_RECV * Z) (w : World) :
  is_telemetry m = false ->
  snapshot_valid_ (bridge w) = false ->
  snapshot_valid_ (bridge (exec (HandleDispatch (fst m) (snd m)) w)) = false.
Proof.
  destruct m as [data t]. unfold is_telemetry. cbn [fst snd].
  destruct data as [| | req telemetry | id]; intros Hm Hv; unfold exec.
  - exact Hv.
  - cbn [HandleDispatch]. now rewrite Close_eq.
  - apply Z.eqb_neq in Hm. now rewrite HandleDispatch_other_request.
  - exact Hv.
Qed.

Lemma pump_without_telemetry (delivered : list (SIMCONNECT_RECV * Z)) (w : World) :
  existsb is_telemetry delivered = false ->
  snapshot_valid_ (bridge w) = false ->
  snapshot_valid_
    (bridge (exec (for_each delivered (fun m => HandleDispatch (fst m) (snd m))) w)) = false.
Proof.
  revert w. induction delivered as [| m ms IH]; intros w Hnone Hv; [exact Hv |].
  cbn [existsb] in Hnone. apply orb_false_elim in Hnone as [Hm Hms].
  cbn [for_each]. unfold exec, bind.
  pose proof (HandleDispatch_without_telemetry m w Hm Hv) as H1. unfold exec in H1.
  destruct (HandleDispatch (fst m) (snd m) w) as [u w1]. cbn [snd] in H1.
  exact (IH w1 Hms H1).
Qed.

Lemma step_without_telemetry (e : Export) (w : World) :
  delivers_telemetry e = false ->
  snapshot_valid_ (bridge w) = false ->
  snapshot_valid_ (bridge (exec (step e) w)) = false.
Proof.
  intros He Hv. destruct e; cbn [step]; try rewrite exec_then_ret.
  - destruct (EnsureConnected_cache now host w) as (_ & Hv' & _). now rewrite Hv'.
  - cbn [delivers_telemetry] in He.
    destruct (EnsureConnected_cache now host w) as (_ & Hv' & _).
    destruct (connected_ (bridge (exec (EnsureConnected now host) w))) eqn:Hc.
    + rewrite Tick_connected by exact Hc.
      unfold do_SimConnect_CallDispatch, exec at 1, bind, gets, call.
      apply pump_without_telemetry; [exact He |]. cbn [bridge]. now rewrite Hv'.
    + rewrite Tick_disconnected by exact Hc. now rewrite Hv'.
  - exact Hv.
  - destruct (GetSnapshotJson_frame w) as (_ & _ & Hv' & _). now rewrite Hv'.
  - exact Hv.
  - now rewrite (proj1 (SetTransponderCode_frame code hr w)).
  - now rewrite (proj1 (SetAdfActiveKHz_frame value_khz hr w)).
  - now rewrite (proj1 (SetAdfStandbyKHz_frame value_khz hr w)).
  - now rewrite (proj1 (SetGearHandle_frame (negb (on =? 0)) hr w)).
  - now rewrite (proj1 (SetFlapsIndex_frame index hr w)).
  - now rewrite (proj1 (SetParkingBrake_frame (negb (on =? 0)) hr w)).
  - now rewrite (proj1 (SetAutopilotMaster_frame (negb (on =? 0)) hr w)).
  - destruct (EnsureConnected_cache now host w) as (_ & Hv' & _). now rewrite Hv'.
  - unfold exec. now rewrite Close_eq.
Qed.

(** X14. Only telemetry makes a snapshot.  Along a run in which the host
    never delivers a data message for the telemetry request, a bridge
    without a snapshot stays without one, so the snapshot reads as the
    empty object, however often it connects, writes and reconnects. *)
Theorem no_telemetry_no_snapshot (es : list Export) :
  forall w : World,
    snapshot_valid_ (bridge w) = false ->
    existsb delivers_telemetry es = false ->
    HasSnapshot (bridge (run es w)) = false /\
    result GetSnapshotJson (run es w) = "{}"%string.
Proof.
  induction es as [| e es IH]; intros w Hv Hnone.
  - cbn [run]. rewrite GetSnapshotJson_result. unfold HasSnapshot. now rewrite Hv.
  - cbn [existsb] in Hnone. apply orb_false_elim in Hnone as [He Hes].
    cbn [run]. apply IH; [| exact Hes]. now apply step_without_telemetry.
Qed.

Lemma no_telemetry_no_snapshot_witness :
  result GetSnapshotJson
    (run [ osb_init 5000 host_up;
           osb_tick 5100 host_up [(SIMCONNECT_RECV_ID_OPEN, 5100)];
           osb_set_flaps_index 2 true;
           osb_tick 6100 host_up
             [(SIMCONNECT_RECV_ID_SIMOBJECT_DATA 2 sample_telemetry, 6100)] ]
       initial) = "{}"%string.
Proof.
  refine (proj2 (no_telemetry_no_snapshot _ initial eq_refl _)).
  vm_compute. reflexivity.
Defined.

(** *** Tick and the dispatch call *)

Lemma pump_filter (p : HostCall -> bool) (delivered : list (SIMCONNECT_RECV * Z)) (w : World) :
  (forall h, p (SimConnect_Close h) = false) ->
  filter p (host_calls (exec (for_each delivered (fun m => HandleDispatch (fst m) (snd m))) w)) =
  filter p (host_calls w).
Proof.
  intros Hp. revert w. induction delivered as [| m ms IH]; intros w; [reflexivity |].
  cbn [for_each]. unfold exec, bind.
  assert (H1 : filter p (host_calls (exec (HandleDispatch (fst m) (snd m)) w)) =
               filter p (host_calls w)).
  { destruct (fst m) as [| | req telemetry | id]; unfold exec; try reflexivity.
    - cbn [HandleDispatch]. rewrite Close_eq. cbn [snd host_calls].
      rewrite filter_app. destruct (simconnect_ (bridge w) =? nullptr); cbn [filter];
        rewrite ?Hp; now rewrite app_nil_r.
    - destruct (Z.eq_dec req kRequestTelemetry) as [-> | Hne].
      + now rewrite HandleDispatch_data_eq.
      + now rewrite HandleDispatch_other_request. }
  unfold exec in H1.
  destruct (HandleDispatch (fst m) (snd m) w) as [u w1]. cbn [snd] in H1.
  specialize (IH w1). unfold exec in IH. congruence.
Qed.

Lemma EnsureConnected_no_dispatch (now : Z) (host : OpenReply) (w : World) :
  filter is_dispatch (host_calls (exec (EnsureConnected now host) w)) =
  filter is_dispatch (host_calls w).
Proof.
  unfold exec.
  destruct (EnsureConnected_cases now host w) as [[Hc E] | [[Hc [Hlt E]] | [Hc [Hge E]]]];
    rewrite E; cbn [snd]; try reflexivity.
  unfold after_attempt. destruct (open_succeeded host); cbn [host_calls];
    rewrite filter_app; cbn [filter is_dispatch]; now rewrite app_nil_r.
Qed.

(** X15. A tick calls SimConnect_CallDispatch once when EnsureConnected
    leaves the bridge connected, with the handle the bridge then holds, and
    not at all otherwise; however many messages the host delivers, it is
    one call. *)
Theorem Tick_dispatches_once (now : Z) (host : OpenReply)
    (delivered : list (SIMCONNECT_RECV * Z)) (w : World) :
  let w1 := exec (EnsureConnected now host) w in
  filter is_dispatch (host_calls (exec (Tick now host delivered) w)) =
  filter is_dispatch (host_calls w) ++
  (if connected_ (bridge w1) then [SimConnect_CallDispatch (simconnect_ (bridge w1))] else []).
Proof.
  intros w1. subst w1.
  destruct (connected_ (bridge (exec (EnsureConnected now host) w))) eqn:Hc.
  - rewrite Tick_connected by exact Hc.
    pose proof (pump_filter is_dispatch delivered
                  (mkWorld (bridge (exec (EnsureConnected now host) w))
                     (host_calls (exec (EnsureConnected now host) w) ++
                      [SimConnect_CallDispatch
                         (simconnect_ (bridge (exec (EnsureConnected now host) w)))]))
                  (fun h => eq_refl)) as Hpump.
    unfold do_SimConnect_CallDispatch, bind, gets, call.
    unfold exec at 1. unfold exec at 1 in Hpump. rewrite Hpump.
    cbn [host_calls]. rewrite filter_app. cbn [filter is_dispatch].
    now rewrite EnsureConnected_no_dispatch.
  - rewrite Tick_disconnected by exact Hc.
    rewrite app_nil_r. apply EnsureConnected_no_dispatch.
Qed.

(** *** The setters and their entry points *)

Ltac setter_result w :=
  unfold result, exec; run_m; destruct (connected_ (bridge w));
  cbn [negb fst snd bridge host_calls andb];
  repeat split; rewrite ?length_app; cbn [List.length]; lia.

(** X16. A setter returns true exactly when the bridge is connected and the
    host accepted the write; it changes no member of the bridge, the cached
    snapshot and its serialization included, and it makes at most one host
    call. *)
Theorem setters_fire_and_forget
    (w : World) (code index : Z) (value_khz : Double.t) (on hr : bool) :
  forall (setter : M bool),
    In setter [ SetTransponderCode code hr; SetAdfActiveKHz value_khz hr;
                SetAdfStandbyKHz value_khz hr; SetGearHandle on hr;
                SetFlapsIndex index hr; SetParkingBrake on hr;
                SetAutopilotMaster on hr ] ->
    result setter w = connected_ (bridge w) && hr /\
    bridge (exec setter w) = bridge w /\
    (List.length (host_calls (exec setter w)) <= List.length (host_calls w) + 1)%nat.
Proof.
  intros setter Hin. cbn [In] in Hin.
  destruct Hin as [<- | [<- | [<- | [<- | [<- | [<- | [<- | []]]]]]]];
    setter_result w.
Qed.

Lemma setters_fire_and_forget_witness :
  result (SetFlapsIndex 2 false) connected_world = false /\
  bridge (exec (SetFlapsIndex 2 false) connected_world) = bridge connected_world.
Proof.
  pose proof (setters_fire_and_forget connected_world 7000 2 Double.zero true false
                (SetFlapsIndex 2 false)
                (or_intror (or_intror (or_intror (or_intror (or_introl eq_refl))))))
    as (Hr & Hb & _).
  split; [exact Hr | exact Hb].
Defined.

(** X17. The entry points of the three boolean setters look only at whether
    their int argument is zero: every nonzero argument does what 1 does. *)
Theorem boolean_entry_points_normalise (on : Z) (hr : bool) (w : World) :
  on <> 0 ->
  Exports.osb_set_gear_handle on hr w = Exports.osb_set_gear_handle 1 hr w /\
  Exports.osb_set_parking_brake on hr w = Exports.osb_set_parking_brake 1 hr w /\
  Exports.osb_set_autopilot_master on hr w = Exports.osb_set_autopilot_master 1 hr w.
Proof.
  intros Hon. apply Z.eqb_neq in Hon.
  unfold Exports.osb_set_gear_handle, Exports.osb_set_parking_brake,
    Exports.osb_set_autopilot_master.
  rewrite Hon. repeat split.
Qed.

Lemma boolean_entry_points_normalise_witness :
  Exports.osb_set_gear_handle (-3) true connected_world =
  Exports.osb_set_gear_handle 1 true connected_world.
Proof.
  refine (proj1 (boolean_entry_points_normalise (-3) true connected_world _)).
  discriminate.
Defined.

(** *** The shape of the host-call trace *)

Lemma blocks_app (a b : list HostCall) : blocks a -> blocks b -> blocks (a ++ b).
Proof.
  intros Ha Hb. induction Ha as [| blk rest Hblk Hrest IH]; [exact Hb |].
  rewrite <- app_assoc. now constructor.
Qed.

Lemma blocks_one (b : list HostCall) : block b -> blocks b.
Proof. intros Hb. rewrite <- (app_nil_r b). constructor; [exact Hb | constructor]. Qed.

Lemma after_attempt_calls (now : Z) (host : OpenReply) (w : World) :
  host_calls (after_attempt now host w) =
  host_calls w ++
  SimConnect_Open "OpenSquawkBridge" ::
  (if open_succeeded host then registration_calls (open_handle host) else []).
Proof. unfold after_attempt. destruct (open_succeeded host); reflexivity. Qed.

Lemma EnsureConnected_blocks (now : Z) (host : OpenReply) (w : World) :
  exists rest,
    host_calls (exec (EnsureConnected now host) w) = host_calls w ++ rest /\ blocks rest.
Proof.
  unfold exec.
  destruct (EnsureConnected_cases now host w) as [[Hc E] | [[Hc [Hlt E]] | [Hc [Hge E]]]];
    rewrite E; cbn [snd].
  - exists []. split; [now rewrite app_nil_r | constructor].
  - exists []. split; [now rewrite app_nil_r | constructor].
  - rewrite after_attempt_calls. eexists. split; [reflexivity |].
    apply blocks_one. destruct (open_succeeded host); constructor.
Qed.

Lemma HandleDispatch_blocks (data : SIMCONNECT_RECV) (now : Z) (w : World) :
  exists rest,
    host_calls (exec (HandleDispatch data now) w) = host_calls w ++ rest /\ blocks rest.
Proof.
  destruct data as [| | req telemetry | id]; unfold exec.
  - exists []. split; [cbn; now rewrite app_nil_r | constructor].
  - cbn [HandleDispatch]. rewrite Close_eq. cbn [snd host_calls].
    eexists. split; [reflexivity |].
    destruct (simconnect_ (bridge w) =? nullptr) eqn:Hh; [constructor |].
    apply blocks_one. constructor. now apply Z.eqb_neq.
  - exists []. rewrite app_nil_r. split; [| constructor].
    destruct (Z.eq_dec req kRequestTelemetry) as [-> | Hne].
    + now rewrite HandleDispatch_data_eq.
    + now rewrite HandleDispatch_other_request.
  - exists []. split; [cbn; now rewrite app_nil_r | constructor].
Qed.

Lemma pump_blocks (delivered : list (SIMCONNECT_RECV * Z)) (w : World) :
  exists rest,
    host_calls (exec (for_each delivered (fun m => HandleDispatch (fst m) (snd m))) w) =
      host_calls w ++ rest /\
    blocks rest.
Proof.
  revert w. induction delivered as [| m ms IH]; intros w.
  - exists []. split; [cbn; now rewrite app_nil_r | constructor].
  - cbn [for_each]. unfold exec, bind.
    destruct (HandleDispatch_blocks (fst m) (snd m) w) as (r1 & H1 & B1). unfold exec in H1.
    destruct (HandleDispatch (fst m) (snd m) w) as [u w1]. cbn [snd] in H1.
    destruct (IH w1) as (r2 & H2 & B2). unfold exec in H2.
    exists (r1 ++ r2). split; [| now apply blocks_app].
    rewrite H2, H1. now rewrite app_assoc.
Qed.

Lemma Tick_blocks (now : Z) (host : OpenReply)
      (delivered : list (SIMCONNECT_RECV * Z)) (w : World) :
  exists rest,
    host_calls (exec (Tick now host delivered) w) = host_calls w ++ rest /\ blocks rest.
Proof.
  destruct (EnsureConnected_blocks now host w) as (r1 & H1 & B1).
  destruct (connected_ (bridge (exec (EnsureConnected now host) w))) eqn:Hc.
  - rewrite Tick_connected by exact Hc.
    destruct (pump_blocks delivered
                (mkWorld (bridge (exec (EnsureConnected now host) w))
                   (host_calls (exec (EnsureConnected now host) w) ++
                    [SimConnect_CallDispatch
                       (simconnect_ (bridge (exec (EnsureConnected now host) w)))])))
      as (r2 & H2 & B2).
    unfold do_SimConnect_CallDispatch, bind, gets, call.
    unfold exec at 1. unfold exec at 1 in H2. rewrite H2. cbn [host_calls].
    rewrite H1. eexists. split; [rewrite <- !app_assoc; reflexivity |].
    apply blocks_app; [exact B1 |].
    apply blocks_app; [apply blocks_one; constructor | exact B2].
  - rewrite Tick_disconnected by exact Hc. exists r1. now split.
Qed.

Ltac setter_blocks w :=
  unfold exec; run_m; destruct (connected_ (bridge w)); cbn [negb snd host_calls];
  [ eexists; split; [reflexivity |]; apply blocks_one; constructor;
    cbv [kDefTransponder kDefAdfActive kDefAdfStandby kDefGearHandle kDefFlapsIndex
         kDefParkingBrake kDefAutopilot]; lia
  | exists []; split; [now rewrite app_nil_r | constructor] ].

Lemma step_blocks (e : Export) (w : World) :
  exists rest, host_calls (exec (step e) w) = host_calls w ++ rest /\ blocks rest.
Proof.
  destruct e; cbn [step]; try rewrite exec_then_ret.
  - apply EnsureConnected_blocks.
  - apply Tick_blocks.
  - exists []. split; [cbn; now rewrite app_nil_r | constructor].
  - exists []. split; [| constructor].
    rewrite (proj1 (proj2 (GetSnapshotJson_frame w))). now rewrite app_nil_r.
  - exists []. split; [cbn; now rewrite app_nil_r | constructor].
  - setter_blocks w.
  - setter_blocks w.
  - setter_blocks w.
  - setter_blocks w.
  - setter_blocks w.
  - setter_blocks w.
  - setter_blocks w.
  - apply EnsureConnected_blocks.
  - unfold exec. rewrite Close_eq. cbn [snd host_calls].
    eexists. split; [reflexivity |].
    destruct (simconnect_ (bridge w) =? nullptr) eqn:Hh; [constructor |].
    apply blocks_one. constructor. now apply Z.eqb_neq.
Qed.

Lemma run_blocks (es : list Export) (w : World) :
  blocks (host_calls w) -> blocks (host_calls (run es w)).
Proof.
  revert w. induction es as [| e es IH]; intros w Hw; [exact Hw |].
  cbn [run]. apply IH.
  destruct (step_blocks e w) as (rest & -> & Hrest). now apply blocks_app.
Qed.

Lemma reachable_blocks (w : World) : reachable w -> blocks (host_calls w).
Proof. intros [es ->]. apply run_blocks. constructor. Qed.

Lemma filter_length_app {A : Type} (p : A -> bool) (a b : list A) :
  List.length (filter p (a ++ b)) =
  (List.length (filter p a) + List.length (filter p b))%nat.
Proof. now rewrite filter_app, length_app. Qed.

(** X18. In every reachable state the trace holds 27 registrations for
    each telemetry request: the bridge never subscribes without having
    registered the twenty fields of the bulk definition and the seven write
    definitions just before, and never registers without subscribing. *)
Theorem registrations_per_request (w : World) :
  reachable w ->
  List.length (filter is_registration (host_calls w)) =
  (27 * List.length (filter is_request (host_calls w)))%nat.
Proof.
  intros Hr. induction (reachable_blocks w Hr) as [| b rest Hb Hrest IH]; [reflexivity |].
  rewrite !filter_length_app, IH.
  destruct Hb; cbn [filter is_registration is_request List.length Nat.add]; try lia.
  change (List.length (filter is_registration (registration_calls h))) with 27%nat.
  change (List.length (filter is_request (registration_calls h))) with 1%nat.
  lia.
Qed.

Lemma registrations_per_request_witness :
  List.length (filter is_registration
                 (host_calls (run (sample_run ++ [module_deinit; osb_init 9000 host_up])
                                initial))) =
  (27 * List.length (filter is_request
                       (host_calls (run (sample_run ++ [module_deinit; osb_init 9000 host_up])
                                      initial))))%nat.
Proof.
  apply registrations_per_request. eexists. reflexivity.
Defined.

(** X19. What the bridge never sends: in every reachable state, each
    SimConnect_Close in the trace carries a handle that is not null, and
    each write addresses one of the seven write definitions, never the bulk
    definition, with a unit size that is the size of the value passed. *)
Theorem trace_calls_are_well_formed (w : World) :
  reachable w ->
  forall c : HostCall,
    In c (host_calls w) ->
    match c with
    | SimConnect_Close h => h <> nullptr
    | SimConnect_SetDataOnSimObject _ DefineID ObjectID Flags ArrayCount cbUnitSize value =>
        kDefTransponder <= DefineID <= kDefAutopilot /\
        DefineID <> kDefTelemetry /\
        cbUnitSize = sizeof value /\
        ArrayCount = 0 /\ Flags = 0 /\ ObjectID = kUserObjectId
    | _ => True
    end.
Proof.
  intros Hr. induction (reachable_blocks w Hr) as [| b rest Hb Hrest IH]; intros c Hin.
  - destruct Hin.
  - apply in_app_or in Hin as [Hin | Hin]; [| now apply IH].
    destruct Hb as [| h | h | h Hh | h d v Hd].
    + destruct Hin as [<- | []]. exact I.
    + destruct Hin as [<- | Hin]; [exact I |].
      unfold registration_calls in Hin.
      repeat (apply in_app_or in Hin as [Hin | Hin]);
        try (apply in_map_iff in Hin as (x & <- & _); exact I).
      destruct Hin as [<- | []]. exact I.
    + destruct Hin as [<- | []]. exact I.
    + destruct Hin as [<- | []]. exact Hh.
    + destruct Hin as [<- | []].
      repeat split; try tauto.
      unfold kDefTransponder, kDefTelemetry in *. lia.
Qed.

Lemma trace_calls_are_well_formed_witness :
  open_handle host_up <> nullptr.
Proof.
  refine (trace_calls_are_well_formed (run [osb_init 5000 host_up; module_deinit] initial)
            _ (SimConnect_Close 7) _).
  - eexists. reflexivity.
  - vm_compute. tauto.
Defined.

Lemma EnsureConnected_from_untouched (now : Z) (host : OpenReply) (w : World) :
  untouched w ->
  untouched (exec (EnsureConnected now host) w) \/
  opened_first (exec (EnsureConnected now host) w).
Proof.
  intros (Hcalls & Hc & Hh). unfold exec.
  destruct (EnsureConnected_cases now host w) as [[Hc' E] | [[_ [Hlt E]] | [_ [Hge E]]]];
    rewrite E; cbn [snd].
  - congruence.
  - left. now repeat split.
  - right. unfold opened_first. rewrite after_attempt_calls, Hcalls. cbn [app]. eauto.
Qed.

Ltac setter_untouched w :=
  intros (Hcalls & Hc & Hh); left; unfold exec; run_m; rewrite Hc; cbn [negb snd];
  now repeat split.

Lemma step_from_untouched (e : Export) (w : World) :
  untouched w -> untouched (exec (step e) w) \/ opened_first (exec (step e) w).
Proof.
  destruct e; cbn [step]; try rewrite exec_then_ret.
  - apply EnsureConnected_from_untouched.
  - intros Hw.
    destruct (connected_ (bridge (exec (EnsureConnected now host) w))) eqn:Hc.
    + right. rewrite Tick_connected by exact Hc.
      destruct (EnsureConnected_from_untouched now host w Hw) as [(_ & Hc' & _) | [r1 H1]];
        [congruence |].
      destruct (CallDispatch_extends delivered (exec (EnsureConnected now host) w))
        as [r2 H2].
      unfold opened_first. rewrite H2, H1. cbn [app]. eauto.
    + rewrite Tick_disconnected by exact Hc.
      now apply EnsureConnected_from_untouched.
  - intros Hw. left. exact Hw.
  - intros (Hcalls & Hc & Hh). left. unfold exec. run_m.
    destruct (snapshot_valid_ (bridge w)); cbn [negb snd bridge host_calls];
      now repeat split.
  - intros Hw. left. exact Hw.
  - setter_untouched w.
  - setter_untouched w.
  - setter_untouched w.
  - setter_untouched w.
  - setter_untouched w.
  - setter_untouched w.
  - setter_untouched w.
  - apply EnsureConnected_from_untouched.
  - intros (Hcalls & Hc & Hh). left. unfold exec. rewrite Close_eq. cbn [snd].
    rewrite Hh, Hcalls. now repeat split.
Qed.

Lemma run_opened_first (es : list Export) (w : World) :
  untouched w \/ opened_first w ->
  untouched (run es w) \/ opened_first (run es w).
Proof.
  revert w. induction es as [| e es IH]; intros w Hw; [exact Hw |].
  cbn [run]. apply IH. destruct Hw as [Hw | [rest Hw]].
  - now apply step_from_untouched.
  - right. destruct (step_blocks e w) as (more & Hmore & _).
    unfold opened_first. rewrite Hmore, Hw. cbn [app]. eauto.
Qed.

(** X20. Nothing reaches the host before SimConnect_Open.  In every
    reachable state either no host call has been made at all, and then the
    bridge is disconnected and holds no handle, or the first call of the
    trace is the open. *)
Theorem open_comes_first (w : World) :
  reachable w ->
  (host_calls w = [] /\ IsConnected (bridge w) = false /\ simconnect_ (bridge w) = nullptr) \/
  (exists rest, host_calls w = SimConnect_Open "OpenSquawkBridge" :: rest).
Proof.
  intros [es ->]. apply (run_opened_first es initial).
  left. now repeat split.
Qed.

Lemma open_comes_first_witness :
  (host_calls (run [osb_set_gear_handle 1 true; module_deinit; osb_tick 100 host_up []]
                 initial) = [] /\
   IsConnected
     (bridge (run [osb_set_gear_handle 1 true; module_deinit; osb_tick 100 host_up []]
                initial)) = false /\
   simconnect_
     (bridge (run [osb_set_gear_handle 1 true; module_deinit; osb_tick 100 host_up []]
                initial)) = nullptr) \/
  (exists rest,
     host_calls (run [osb_set_gear_handle 1 true; module_deinit; osb_tick 100 host_up []]
                   initial) = SimConnect_Open "OpenSquawkBridge" :: rest).
Proof.
  apply open_comes_first. eexists. reflexivity.
Defined.

(** *** Runs under a steady clock *)

Lemma open_attempts_spaced_witness :
  spaced 0
    (attempt_times
       [ osb_init 1000 host_down; osb_tick 2500 host_down []; osb_set_flaps_index 1 true;
         osb_tick 3000 host_up []; module_init 4600 host_up; module_deinit;
         osb_tick 5000 host_up []; osb_tick 6600 host_up [] ]
       initial).
Proof.
  refine (open_attempts_spaced _ initial 0 _ _).
  - cbn. lia.
  - cbn [clock_monotone connect_clock]. unfold U64.modulus. repeat split; lia.
Defined.



(** X21. On a connected bridge SetTransponderCode writes the code reduced
    modulo 2^32: a code from 0 to 2^32 - 1 goes out as it is, and a
    negative int goes out as the code plus 2^32. *)
Theorem SetTransponderCode_value (code : Z) (hr : bool) (w : World) :
  connected_ (bridge w) = true ->
  - 2 ^ 31 <= code < 2 ^ 31 ->
  host_calls (exec (SetTransponderCode code hr) w) =
  host_calls w ++
  [SimConnect_SetDataOnSimObject (simconnect_ (bridge w)) kDefTransponder kUserObjectId 0 0 4
     (uint32_datum (if code <? 0 then code + 2 ^ 32 else code))].
Proof.
  intros Hc Hcode.
  rewrite (proj1 (SetTransponderCode_datum code hr w Hc)).
  do 4 f_equal.
  destruct (code <? 0) eqn:Hneg.
  - apply Z.ltb_lt in Hneg.
    rewrite <- (Z.mod_add code 1 (2 ^ 32)) by lia.
    rewrite Z.mul_1_l. apply Z.mod_small. lia.
  - apply Z.ltb_ge in Hneg. apply Z.mod_small. lia.
Qed.

Lemma SetTransponderCode_value_witness :
  host_calls (exec (SetTransponderCode (-1) true) connected_world) =
  host_calls connected_world ++
  [SimConnect_SetDataOnSimObject 7 kDefTransponder kUserObjectId 0 0 4
     (uint32_datum 4294967295)].
Proof.
  refine (SetTransponderCode_value (-1) true connected_world eq_refl _).
  lia.
Defined.

(** * Examples *)

Example fmt_f_one : Printf.fmt_f 2 Double.one = "1.00"%string.
Proof. reflexivity. Qed.

Example fmt_f_tie_to_even_down : Printf.fmt_f 2 (Double.dyadic 1 (-3)) = "0.12"%string.
Proof. reflexivity. Qed.

Example fmt_f_tie_to_even_up : Printf.fmt_f 2 (Double.dyadic 3 (-3)) = "0.38"%string.
Proof. reflexivity. Qed.

Example fmt_f_negative_rounds_to_zero :
  Printf.fmt_f 2 (Double.dyadic (-1) (-10)) = "-0.00"%string.
Proof. reflexivity. Qed.

Example fmt_f_not_a_number :
  map (Printf.fmt_f 2)
    [ Double.F754_nan false; Double.F754_nan true;
      Double.F754_infinity false; Double.F754_infinity true; Double.F754_zero true ] =
  ["nan"; "-nan"; "inf"; "-inf"; "-0.00"]%string.
Proof. reflexivity. Qed.

Example registration_calls_count :
  List.length (registration_calls 7) = 28%nat /\
  List.length (telemetry_definition) = 20%nat /\
  List.length (write_definitions) = 7%nat.
Proof. repeat split. Qed.

(* The definition a call registers into. *)
Example registration_define_ids :
  map (fun c => match c with
                | SimConnect_AddToDataDefinition _ d _ _ => d
                | _ => 0
                end) (registration_calls 7) =
  repeat kDefTelemetry 20 ++
  [kDefTransponder; kDefAdfActive; kDefAdfStandby; kDefGearHandle; kDefFlapsIndex;
   kDefParkingBrake; kDefAutopilot; 0].
Proof. reflexivity. Qed.

(* The golden string of the sample reading. *)
Example sample_snapshot_json :
  result GetSnapshotJson (run sample_run initial) =
  Printf.cstr
    ("{'latitude':47.50000000,'longitude':8.56250000,'altitude_ft_true':1416.25," ++
     "'altitude_ft_indicated':1417.50,'ias_kt':-0.38,'tas_kt':0.00," ++
     "'ground_velocity_mps':0.062,'turbine_n1_pct':210.62,'on_ground':1," ++
     "'engine_combustion':1,'transponder_code':7000,'adf_active_freq_khz':375.500," ++
     "'adf_standby_freq_khz':1020.000,'vertical_speed_fpm':-6.2,'pitch_deg':-2.50," ++
     "'turbine_n1_pct_2':210.88,'gear_handle':1,'flaps_index':0,'parking_brake':1," ++
     "'autopilot_master':0}")%string.
Proof. vm_compute. reflexivity. Qed.

(* Before the first reading, and again after module_deinit, the snapshot is
   the empty object and its age is 0. *)
Example empty_object_without_snapshot :
  result GetSnapshotJson connected_world = "{}"%string /\
  result GetSnapshotJson (run (sample_run ++ [module_deinit]) initial) = "{}"%string /\
  SnapshotAgeMs 9000 (bridge (run (sample_run ++ [module_deinit]) initial)) = 0 /\
  SnapshotAgeMs 9000 (bridge (run sample_run initial)) = 3900.
Proof. vm_compute. repeat split. Qed.

(* A failing host is tried at 2 s, 4 s and 6.5 s by ticks every half second. *)
Example failing_host_attempts :
  attempt_times
    (map (fun t => osb_tick t host_down [])
       [500; 1000; 1500; 2000; 2500; 3000; 3500; 4000; 4500; 5000; 5500; 6500])
    initial = [2000; 4000; 6500].
Proof. vm_compute. reflexivity. Qed.
